(** * torch_autoneb: the landscape graph and the AutoNEB orchestration

    A shallow embedding of [torch_autoneb/__init__.py]: the path optimizer
    [neb], the cycle manager [auto_neb], the exploration loop
    [landscape_exploration], the graph reducer [to_simple_graph] and the
    loader [load_pickle_graph], together with the part of networkx's
    [MultiGraph] and [Graph] they rely on.  ([find_minimum] does not touch
    the graph; it is in the module [FindMinimum].)

    Python exceptions are values of [exn]; a computation that may raise
    returns a [result].  Code that mutates the graph is written in a state
    and error monad [M]: an exception leaves the mutations made so far in
    place, as in Python.  Line numbers refer to [__init__.py]. *)

From Stdlib Require Import ZArith QArith String List.
From stdpp Require Import gmap strings list fin_maps.

Local Open Scope string_scope.

(** ** Exceptions and results *)

Inductive exn : Type :=
| KeyError
| IndexError
| TypeError
| AttributeError
| AssertionError
| RuntimeError
| OSError
| ValueError (msg : string).

Inductive result (A : Type) : Type :=
| Ok (a : A)
| Raise (e : exn).

Arguments Ok {A} a.
Arguments Raise {A} e.

Definition result_bind {A B : Type} (r : result A) (k : A -> result B) : result B :=
  match r with
  | Ok a => k a
  | Raise e => Raise e
  end.

Notation "x <~ r ; k" := (result_bind r (fun x => k))
  (at level 20, r at level 100, k at level 200, only parsing).
Notation "' pat <~ r ; k" := (result_bind r (fun pat => k))
  (at level 20, pat pattern, r at level 100, k at level 200, only parsing).

Definition of_option {A : Type} (e : exn) (o : option A) : result A :=
  match o with
  | Some a => Ok a
  | None => Raise e
  end.

(** ** Attribute values

    Floats are modelled by exact rationals (finite values only); a tensor is
    one- or two-dimensional. *)

Inductive tensor : Type :=
| T1 (xs : list Q)
| T2 (rows : list (list Q)).

Inductive value : Type :=
| VNum (q : Q)
| VInt (z : Z)
| VTensor (t : tensor).

(** An attribute dictionary: attribute names are strings (they travel as
    keyword arguments). *)
Abbreviation attrs := (gmap string value).

(** [d[name]] *)
Definition attrs_getitem (d : attrs) (name : string) : result value :=
  of_option KeyError (d !! name).

(** [d.update(other)]: the entries of [other] win. *)
Definition attrs_update (d other : attrs) : attrs := other ∪ d.

Definition tensor_elements (t : tensor) : list Q :=
  match t with
  | T1 xs => xs
  | T2 rows => concat rows
  end.

(** The number a value stands for in a comparison that Python can turn into
    a truth value: a scalar, or a tensor with exactly one element. *)
Definition as_scalar (v : value) : option Q :=
  match v with
  | VNum q => Some q
  | VInt z => Some (inject_Z z)
  | VTensor t =>
      match tensor_elements t with
      | [q] => Some q
      | _ => None
      end
  end.

Definition Qltb (x y : Q) : bool := negb (Qle_bool y x).

(** [bool(a < b)]: tensors with several (or no) elements have no truth value. *)
Definition value_lt (a b : value) : result bool :=
  match as_scalar a, as_scalar b with
  | Some x, Some y => Ok (Qltb x y)
  | _, _ => Raise RuntimeError
  end.

(** [t.view(1, -1)] *)
Definition view_row (v : value) : result (list Q) :=
  match v with
  | VTensor t => Ok (tensor_elements t)
  | _ => Raise AttributeError
  end.

(** [torch.cat([r1, r2])] of two one-row tensors. *)
Definition cat_rows (r1 r2 : list Q) : result value :=
  if Nat.eqb (length r1) (length r2)
  then Ok (VTensor (T2 [r1; r2]))
  else Raise RuntimeError.

(** [torch.ones(1)] *)
Definition ones1 : value := VTensor (T1 [1%Q]).

(** ** Python built-ins *)

(** [min(xs, key=key)]: the first element whose key is not beaten by a
    later, strictly smaller one. *)
Fixpoint py_min_loop {A : Type} (key : A -> result value) (best : A) (best_val : value)
    (rest : list A) : result A :=
  match rest with
  | [] => Ok best
  | x :: rest' =>
      v <~ key x;
      b <~ value_lt v best_val;
      if b : bool then py_min_loop key x v rest' else py_min_loop key best best_val rest'
  end.

Definition py_min {A : Type} (xs : list A) (key : A -> result value) : result A :=
  match xs with
  | [] => Raise (ValueError "min() arg is an empty sequence")
  | x :: rest => v <~ key x; py_min_loop key x v rest
  end.

(** [xs[i]] on a list, negative indices counting from the end. *)
Definition py_list_getitem {A : Type} (xs : list A) (i : Z) : result A :=
  let n := Z.of_nat (length xs) in
  if ((0 <=? i) && (i <? n))%Z then of_option IndexError (xs !! Z.to_nat i)
  else if ((- n <=? i) && (i <? 0))%Z then of_option IndexError (xs !! Z.to_nat (n + i))
  else Raise IndexError.

(** [range(a, b)] *)
Definition py_range (a b : Z) : list Z :=
  map (fun k => (a + Z.of_nat k)%Z) (seq 0 (Z.to_nat (b - a))).

(** ** networkx graphs *)

(** Nodes (minima) are identified by integers: a node can coincide with a
    cycle index, never with an attribute name. *)
Definition node : Type := Z.
Bind Scope Z_scope with node.

(** The key dictionary of a pair: cycle index to edge record, in insertion
    order. *)
Definition keydict : Type := list (Z * attrs).

Fixpoint keydict_get (kd : keydict) (key : Z) : option attrs :=
  match kd with
  | [] => None
  | (k, d) :: kd' => if (k =? key)%Z then Some d else keydict_get kd' key
  end.

(** [kd[key]] *)
Definition keydict_getitem (kd : keydict) (key : Z) : result attrs :=
  of_option KeyError (keydict_get kd key).

Fixpoint keydict_alter (f : attrs -> attrs) (key : Z) (kd : keydict) : keydict :=
  match kd with
  | [] => []
  | (k, d) :: kd' =>
      if (k =? key)%Z then (k, f d) :: kd' else (k, d) :: keydict_alter f key kd'
  end.

Definition keydict_keys (kd : keydict) : list Z := map fst kd.

(** Two ways of naming the same unordered pair. *)
Definition same_pair (p q : node * node) : bool :=
  ((fst p =? fst q)%Z && (snd p =? snd q)%Z) || ((fst p =? snd q)%Z && (snd p =? fst q)%Z).

(** A [MultiGraph].  [mg_node] is [_node]; [mg_adj] holds one key dictionary
    per adjacent unordered pair, in the order the pairs were created:
    networkx stores the same dictionary object under [_adj[u][v]] and
    [_adj[v][u]], so both directions read and write the one entry here. *)
Record MultiGraph : Type := mkMultiGraph {
  mg_node : list (node * attrs);
  mg_adj : list ((node * node) * keydict)
}.

Fixpoint node_get (ns : list (node * attrs)) (n : node) : option attrs :=
  match ns with
  | [] => None
  | (m, d) :: ns' => if (m =? n)%Z then Some d else node_get ns' n
  end.

Fixpoint pair_get (es : list ((node * node) * keydict)) (p : node * node) : option keydict :=
  match es with
  | [] => None
  | (q, kd) :: es' => if same_pair q p then Some kd else pair_get es' p
  end.

Fixpoint pair_alter (f : keydict -> keydict) (p : node * node)
    (es : list ((node * node) * keydict)) : list ((node * node) * keydict) :=
  match es with
  | [] => []
  | (q, kd) :: es' =>
      if same_pair q p then (q, f kd) :: es' else (q, kd) :: pair_alter f p es'
  end.

(** [for n in graph] *)
Definition mg_nodes (g : MultiGraph) : list node := map fst (mg_node g).

Definition mg_has_node (g : MultiGraph) (n : node) : bool :=
  bool_decide (is_Some (node_get (mg_node g) n)).

(** [graph.nodes[n]] *)
Definition mg_nodes_getitem (g : MultiGraph) (n : node) : result attrs :=
  of_option KeyError (node_get (mg_node g) n).

(** The keys of [graph[m1]]: the neighbours of [m1], in the order their
    pairs were created. *)
Definition mg_neighbors (g : MultiGraph) (m1 : node) : list node :=
  flat_map (fun '((u, v), _) =>
              if (u =? m1)%Z then [v] else if (v =? m1)%Z then [u] else [])
           (mg_adj g).

(** [graph[m1][m2]]: [KeyError] when [m1] is not a node, and when the pair
    has no key dictionary. *)
Definition mg_getitem2 (g : MultiGraph) (m1 m2 : node) : result keydict :=
  if mg_has_node g m1 then of_option KeyError (pair_get (mg_adj g) (m1, m2))
  else Raise KeyError.

(** [graph[m1][m2][key]]: the edge record itself, not a copy. *)
Definition mg_getitem3 (g : MultiGraph) (m1 m2 : node) (key : Z) : result attrs :=
  kd <~ mg_getitem2 g m1 m2;
  keydict_getitem kd key.

(** An assignment [graph[m1][m2][key][name] = v] through such a record. *)
Definition mg_edge_setitem (g : MultiGraph) (m1 m2 : node) (key : Z) (name : string)
    (v : value) : MultiGraph :=
  {| mg_node := mg_node g;
     mg_adj := pair_alter (keydict_alter (fun d => <[name := v]> d) key) (m1, m2) (mg_adj g) |}.

Definition mg_ensure_node (n : node) (ns : list (node * attrs)) : list (node * attrs) :=
  match node_get ns n with
  | Some _ => ns
  | None => (ns ++ [(n, ∅)])%list
  end.

(** [keydict[key] = keydict.get(key, {}).update(attr)] *)
Definition keydict_add (key : Z) (attr : attrs) (kd : keydict) : keydict :=
  match keydict_get kd key with
  | Some _ => keydict_alter (fun d => attrs_update d attr) key kd
  | None => (kd ++ [(key, attr)])%list
  end.

(** [graph.add_edge(u, v, key=key, **attr)] of a [MultiGraph]. *)
Definition mg_add_edge (g : MultiGraph) (u v : node) (key : Z) (attr : attrs) : MultiGraph :=
  {| mg_node := mg_ensure_node v (mg_ensure_node u (mg_node g));
     mg_adj :=
       match pair_get (mg_adj g) (u, v) with
       | Some _ => pair_alter (keydict_add key attr) (u, v) (mg_adj g)
       | None => (mg_adj g ++ [((u, v), [(key, attr)])])%list
       end |}.

(** A simple [Graph]: at most one edge record per unordered pair, stored
    under the pair with the smaller node first. *)
Record Graph : Type := mkGraph {
  sg_node : gmap node attrs;
  sg_adj : gmap (node * node) attrs
}.

Definition empty_graph : Graph := {| sg_node := ∅; sg_adj := ∅ |}.

Definition edge_slot (u v : node) : node * node := (Z.min u v, Z.max u v).

(** [simple_graph[u][v]] *)
Definition sg_edge (sg : Graph) (u v : node) : option attrs := sg_adj sg !! edge_slot u v.

(** [simple_graph.add_node(n, **attr)].  (Attribute names are taken not to
    collide with the names networkx gives the positional parameters of
    [add_node] and [add_edge].) *)
Definition sg_add_node (sg : Graph) (n : node) (attr : attrs) : Graph :=
  {| sg_node := <[n := attrs_update (default ∅ (sg_node sg !! n)) attr]> (sg_node sg);
     sg_adj := sg_adj sg |}.

(** [simple_graph.add_edge(u, v, **attr)] *)
Definition sg_add_edge (sg : Graph) (u v : node) (attr : attrs) : Graph :=
  {| sg_node := sg_node (sg_add_node (sg_add_node sg u ∅) v ∅);
     sg_adj := <[edge_slot u v := attrs_update (default ∅ (sg_edge sg u v)) attr]>
                 (sg_adj sg) |}.

(** ** State and error monad

    [M S A] is a computation over a mutable state [S] that returns an [A] or
    raises; the state reached when it raises is kept. *)

Definition M (S A : Type) : Type := S -> result A * S.

Definition ret {S A : Type} (a : A) : M S A := fun s => (Ok a, s).

Definition throw {S A : Type} (e : exn) : M S A := fun s => (Raise e, s).

Definition lift {S A : Type} (r : result A) : M S A := fun s => (r, s).

Definition bind {S A B : Type} (m : M S A) (k : A -> M S B) : M S B :=
  fun s =>
    match m s with
    | (Ok a, s') => k a s'
    | (Raise e, s') => (Raise e, s')
    end.

Definition get {S : Type} : M S S := fun s => (Ok s, s).

Definition modify {S : Type} (f : S -> S) : M S unit := fun s => (Ok tt, f s).

Notation "x <- m ; k" := (bind m (fun x => k))
  (at level 20, m at level 100, k at level 200, only parsing).
Notation "' pat <- m ; k" := (bind m (fun pat => k))
  (at level 20, pat pattern, m at level 100, k at level 200, only parsing).

(** [for x in xs: body(x)] *)
Fixpoint for_each {S A : Type} (xs : list A) (body : A -> M S unit) : M S unit :=
  match xs with
  | [] => ret tt
  | x :: xs' => _ <- body x; for_each xs' body
  end.

(** A [for] loop that rebinds a local variable. *)
Fixpoint for_fold {S A B : Type} (xs : list A) (body : A -> B -> M S B) (acc : B) : M S B :=
  match xs with
  | [] => ret acc
  | x :: xs' => acc' <- body x acc; for_fold xs' body acc'
  end.

(** [assert b] *)
Definition py_assert {S : Type} (b : bool) : M S unit :=
  if b then ret tt else throw AssertionError.

(** ** The graph reducer *)

(** Lines 125-128, for one [m1], [m2].  [best_edge_data] is the edge record
    of the multigraph itself, so the assignment on line 127 writes into the
    multigraph, and line 128 passes the record as it is after that write. *)
Definition reduce_pair (weight_key : string) (m1 m2 : node) (simple_graph : Graph)
    : M MultiGraph Graph :=
  graph <- get;
  best_edge_key <- lift (keys <~ mg_getitem2 graph m1 m2;
                         py_min (keydict_keys keys)
                           (fun key => d <~ mg_getitem3 graph m1 m2 key;
                                       attrs_getitem d weight_key));
  _ <- lift (mg_getitem3 graph m1 m2 best_edge_key);
  _ <- modify (fun g => mg_edge_setitem g m1 m2 best_edge_key
                          "cycle_idx" (VInt best_edge_key));
  graph' <- get;
  best_edge_data <- lift (mg_getitem3 graph' m1 m2 best_edge_key);
  ret (sg_add_edge simple_graph m1 m2 best_edge_data).

(** Lines 120-121. *)
Definition copy_nodes (graph : MultiGraph) (simple_graph : Graph) : result Graph :=
  fold_left (fun acc n =>
               sg <~ acc;
               d <~ mg_nodes_getitem graph n;
               Ok (sg_add_node sg n d))
            (mg_nodes graph) (Ok simple_graph).

(** [to_simple_graph(graph, weight_key)]: the returned graph (or the
    exception), and the multigraph as the call leaves it. *)
Definition to_simple_graph (graph : MultiGraph) (weight_key : string)
    : result Graph * MultiGraph :=
  (simple_graph <- lift (copy_nodes graph empty_graph);
   for_fold (mg_nodes graph)
     (fun m1 sg =>
        g <- get;
        for_fold (mg_neighbors g m1) (fun m2 sg' => reduce_pair weight_key m1 m2 sg') sg)
     simple_graph) graph.

(** ** Collaborators outside this module *)

(** Modelled from the spec: the model wrapper, the fill strategy, the NEB
    path model of [torch_autoneb.neb], the optimiser registry of
    [torch.optim] and the suggestion chain of [torch_autoneb.suggest] are
    not in this module; they are the capability set of section 6, taken as
    parameters. *)
Class Externals : Type := {
  ModelWrapper : Type;
  FillMethod : Type;
  OptimArgs : Type;
  SuggestEngine : Type;
  NEBModel : Type;
  Optimiser : Type;
  (** [fill_method.fill(path_coords, insert_count, target_distances, previous_cycle_data)] *)
  fill : FillMethod -> value -> Z -> value -> attrs -> result (value * value);
  (** [NEB(model, start_path, target_distances)] *)
  NEB_new : ModelWrapper -> value -> value -> result NEBModel;
  (** [getattr(optim, name)(neb_model.parameters(), **optim_args)];
      [None] when [optim] has no attribute of that name *)
  optim_new : string -> option (NEBModel -> OptimArgs -> result Optimiser);
  (** [neb_model.apply(gradient=True)] *)
  neb_apply : NEBModel -> result NEBModel;
  (** [optimiser.step()] *)
  optimiser_step : Optimiser -> NEBModel -> result (Optimiser * NEBModel);
  (** [neb_model.path_coords.detach().clone()] *)
  neb_path_coords : NEBModel -> value;
  (** [neb_model.analyse()] *)
  neb_analyse : NEBModel -> result attrs;
  (** [suggest_pair(graph, value_key, weight_key, *engines)] *)
  suggest_pair : MultiGraph -> string -> string -> list SuggestEngine
                 -> result (option node * option node);
}.

(** What a pickled file can hold. *)
Inductive pyobject : Type :=
| ObjMultiGraph (g : MultiGraph)
| ObjGraph (g : Graph)
| ObjOther (repr : string).

(** [isinstance(obj, MultiGraph)] *)
Definition is_multigraph (obj : pyobject) : bool :=
  match obj with
  | ObjMultiGraph _ => true
  | _ => false
  end.

(** ** Progress reporting (lines 12-29) *)

Inductive pbar_class : Type :=
| Tqdm
| Fallback.


(** [iter(pbar(xs))]: both classes yield the elements of [xs]. *)
Definition pbar_iter {A : Type} (pbar : pbar_class) (xs : list A) : list A := xs.

(** What [with pbar(...) as bar] binds [bar] to: tqdm's [__enter__] returns
    the bar, the fallback's body is [pass] and returns [None]. *)
Definition pbar_enter (pbar : pbar_class) : option pbar_class :=
  match pbar with
  | Tqdm => Some Tqdm
  | Fallback => None
  end.

Section Orchestration.
Context `{Ext : Externals}.

(** Modelled from the spec: the configuration classes of
    [torch_autoneb.hyperparameters], with the fields this module reads. *)
Record OptimHyperparameters : Type := {
  optim_name : string;
  optim_args : OptimArgs;
  nsteps : Z
}.

Record NEBHyperparameters : Type := {
  fill_method : FillMethod;
  insert_count : Z;
  optim_config : OptimHyperparameters
}.

Record AutoNEBHyperparameters : Type := {
  cycle_count : Z;
  hyperparameter_sets : list NEBHyperparameters
}.

Record LandscapeExplorationHyperparameters : Type := {
  value_key : string;
  weight_key : string;
  suggest_engines : list SuggestEngine;
  auto_neb_config : AutoNEBHyperparameters
}.

(** ** The path optimizer (lines 55-78) *)

(** Lines 67-70. *)
Fixpoint optimise_steps (steps : list Z) (neb_model : NEBModel) (optimiser : Optimiser)
    : result (Optimiser * NEBModel) :=
  match steps with
  | [] => Ok (optimiser, neb_model)
  | _ :: steps' =>
      neb_model' <~ neb_apply neb_model;
      '(optimiser', neb_model'') <~ optimiser_step optimiser neb_model';
      optimise_steps steps' neb_model'' optimiser'
  end.

Definition neb (pbar : pbar_class) (previous_cycle_data : attrs) (model : ModelWrapper)
    (config : NEBHyperparameters) : result attrs :=
  previous_path_coords <~ attrs_getitem previous_cycle_data "path_coords";
  previous_target_distances <~ attrs_getitem previous_cycle_data "target_distances";
  '(start_path, target_distances) <~
    fill (fill_method config) previous_path_coords (insert_count config)
         previous_target_distances previous_cycle_data;
  neb_model <~ NEB_new model start_path target_distances;
  let optim_config := optim_config config in
  make_optimiser <~ of_option AttributeError (optim_new (optim_name optim_config));
  optimiser <~ make_optimiser neb_model (optim_args optim_config);
  '(_, neb_model') <~
    optimise_steps (pbar_iter pbar (py_range 0 (nsteps optim_config))) neb_model optimiser;
  let result := ({[ "path_coords" := neb_path_coords neb_model';
                    "target_distances" := target_distances ]} : attrs) in
  analysis <~ neb_analyse neb_model';
  Ok (attrs_update result analysis).

(** ** Calls *)

(** A positional argument of a call. *)
Inductive pyarg : Type :=
| ANode (n : node)
| AData (d : attrs)
| AModel (m : ModelWrapper)
| AConfig (c : NEBHyperparameters).

(** A call of the function [neb] of line 55, which has three
    positional parameters: any other number of arguments is a [TypeError].
    (Three arguments of other kinds fail inside the body; no call site
    passes them.) *)
Definition call_neb (pbar : pbar_class) (args : list pyarg) : result attrs :=
  match args with
  | [AData previous_cycle_data; AModel model; AConfig config] =>
      neb pbar previous_cycle_data model config
  | _ => Raise TypeError
  end.

(** The mutable world of the exploration: the graph object, and two
    records kept for the statements below, the argument lists of the calls
    made through the name [neb] and the number of updates a tqdm bar has
    received. *)
Record world : Type := mkWorld {
  w_graph : MultiGraph;
  w_calls : list (list pyarg);
  w_progress : nat
}.

Definition set_graph (g : MultiGraph) (w : world) : world :=
  {| w_graph := g; w_calls := w_calls w; w_progress := w_progress w |}.

(** Call whatever the name [neb] is bound to, recording the arguments. *)
Definition call_logged (callee : list pyarg -> result attrs) (args : list pyarg)
    : M world attrs :=
  _ <- modify (fun w => {| w_graph := w_graph w;
                           w_calls := (w_calls w ++ [args])%list;
                           w_progress := w_progress w |});
  lift (callee args).

(** The [previous_cycle_data] and the hyperparameter set among the
    arguments of a call written as on line 99. *)
Definition call_previous_cycle_data (args : list pyarg) : option attrs :=
  match args with
  | [_; _; AData d; _; _] => Some d
  | _ => None
  end.

Definition call_config (args : list pyarg) : option NEBHyperparameters :=
  match args with
  | [_; _; _; _; AConfig c] => Some c
  | _ => None
  end.

(** [graph.add_edge(m1, m2, key=cycle_idx, **connection_data)]: a
    [connection_data] with an entry named [key] collides with the explicit
    keyword. *)
Definition graph_add_edge (m1 m2 : node) (cycle_idx : Z) (connection_data : attrs)
    : M world unit :=
  match connection_data !! "key" with
  | Some _ => throw TypeError
  | None =>
      modify (fun w =>
                set_graph (mg_add_edge (w_graph w) m1 m2 cycle_idx connection_data) w)
  end.

(** ** The cycle manager (lines 81-100) *)

(** [d[m]] for a node [m] and an attribute dictionary [d]: attribute names
    are strings and a node is an integer, so the lookup finds nothing. *)
Definition attrs_getitem_node {A : Type} (d : attrs) (m : node) : result A :=
  Raise KeyError.

(** [graph.nodes[m]["coords"].view(1, -1)] *)
Definition node_coords_row (graph : MultiGraph) (m : node) : result (list Q) :=
  d <~ mg_nodes_getitem graph m;
  coords <~ attrs_getitem d "coords";
  view_row coords.

(** Lines 83-93: the seed [previous_cycle_data] and [start_cycle_idx].
    On line 85 [existing_edges] is already the key dictionary of the pair;
    indexing it by [m1] reads [m1] as a cycle index, and indexing the edge
    record found there by [m2] raises before [max], the second lookup and
    the increment of lines 85-87 are evaluated. *)
Definition auto_neb_seed (graph : MultiGraph) (m1 m2 : node) : result (attrs * Z) :=
  existing_edges <~ mg_getitem2 graph m1 m2;
  if (0 <? length existing_edges)%nat then
    record <~ keydict_getitem existing_edges m1;
    attrs_getitem_node record m2
  else
    row1 <~ node_coords_row graph m1;
    row2 <~ node_coords_row graph m2;
    path_coords <~ cat_rows row1 row2;
    let previous_cycle_data :=
      ({[ "path_coords" := path_coords; "target_distances" := ones1 ]} : attrs) in
    Ok (previous_cycle_data, 1%Z).

(** Lines 97-100, with the callable the name [neb] is bound to as a
    parameter. *)
Definition auto_neb_loop (callee : list pyarg -> result attrs) (pbar : pbar_class)
    (m1 m2 : node) (model : ModelWrapper) (config : AutoNEBHyperparameters)
    (previous_cycle_data : attrs) (start_cycle_idx : Z) : M world unit :=
  for_each (pbar_iter pbar (py_range start_cycle_idx (cycle_count config + 1)))
    (fun cycle_idx =>
       cycle_config <- lift (py_list_getitem (hyperparameter_sets config)
                                             (start_cycle_idx - 1));
       connection_data <- call_logged callee
         [ANode m1; ANode m2; AData previous_cycle_data; AModel model; AConfig cycle_config];
       graph_add_edge m1 m2 cycle_idx connection_data).

Definition auto_neb_with (callee : list pyarg -> result attrs) (pbar : pbar_class)
    (m1 m2 : node) (model : ModelWrapper) (config : AutoNEBHyperparameters) : M world unit :=
  w <- get;
  '(previous_cycle_data, start_cycle_idx) <- lift (auto_neb_seed (w_graph w) m1 m2);
  _ <- py_assert (start_cycle_idx <=? cycle_count config)%Z;
  auto_neb_loop callee pbar m1 m2 model config previous_cycle_data start_cycle_idx.

(** [auto_neb] as the module runs it: [neb] is the function of line 55. *)
Definition auto_neb (pbar : pbar_class) (m1 m2 : node) (model : ModelWrapper)
    (config : AutoNEBHyperparameters) : M world unit :=
  auto_neb_with (call_neb pbar) pbar m1 m2 model config.

(** ** The exploration loop (lines 103-111) *)

(** [bar.update()] *)
Definition bar_update (bar : option pbar_class) : M world unit :=
  match bar with
  | None => throw AttributeError
  | Some _ => modify (fun w => {| w_graph := w_graph w;
                                  w_calls := w_calls w;
                                  w_progress := S (w_progress w) |})
  end.

(** The [while True] loop, cut off after [fuel] iterations: [Some tt] when
    the loop was left by [break], [None] when the iterations ran out. *)
Fixpoint exploration_loop
    (manager : node -> node -> ModelWrapper -> AutoNEBHyperparameters -> M world unit)
    (fuel : nat) (bar : option pbar_class) (model : ModelWrapper)
    (config : LandscapeExplorationHyperparameters) : M world (option unit) :=
  match fuel with
  | O => ret None
  | S fuel' =>
      w <- get;
      '(m1, m2) <- lift (suggest_pair (w_graph w) (value_key config) (weight_key config)
                                      (suggest_engines config));
      match m1, m2 with
      | Some m1, Some m2 =>
          _ <- manager m1 m2 model (auto_neb_config config);
          _ <- bar_update bar;
          exploration_loop manager fuel' bar model config
      | _, _ => ret (Some tt)
      end
  end.

(** [landscape_exploration] with the callable named [auto_neb] as a
    parameter. *)
Definition landscape_exploration_with
    (manager : node -> node -> ModelWrapper -> AutoNEBHyperparameters -> M world unit)
    (pbar : pbar_class) (fuel : nat) (model : ModelWrapper)
    (config : LandscapeExplorationHyperparameters) : M world (option unit) :=
  let bar := pbar_enter pbar in
  exploration_loop manager fuel bar model config.

Definition landscape_exploration (pbar : pbar_class) (fuel : nat) (model : ModelWrapper)
    (config : LandscapeExplorationHyperparameters) : M world (option unit) :=
  landscape_exploration_with (auto_neb pbar) pbar fuel model config.

End Orchestration.

(** ** The loader (lines 133-140) *)

(** [load_pickle_graph(graph_file_name)], given what [open] and
    [pickle.load] produce for that name. *)
Definition load_pickle_graph (read_pickle : string -> result pyobject)
    (graph_file_name : string) : result pyobject :=
  graph <~ read_pickle graph_file_name;
  if negb (is_multigraph graph)
  then Raise (ValueError (graph_file_name ++ " does not contain a nx.MultiGraph"))
  else Ok graph.

(** ** Vocabulary of the statements *)

(** Line 125 for a given key dictionary [graph[m1][m2]]. *)
Definition best_edge_key (weight_key : string) (kd : keydict) : result Z :=
  py_min (keydict_keys kd)
    (fun key => d <~ keydict_getitem kd key; attrs_getitem d weight_key).

(** The number an edge record carries under the weight key. *)
Definition weight_of (weight_key : string) (d : attrs) : option Q :=
  match d !! weight_key with
  | Some v => as_scalar v
  | None => None
  end.

(** No two entries name the same unordered pair. *)
Fixpoint distinct_pairs (ps : list (node * node)) : bool :=
  match ps with
  | [] => true
  | p :: ps' => forallb (fun q => negb (same_pair p q)) ps' && distinct_pairs ps'
  end.

(** What networkx maintains for every [MultiGraph] built through its
    interface: node identifiers are distinct, the ends of every adjacent pair
    are nodes, each unordered pair has one key dictionary, and a key
    dictionary is non-empty with distinct keys. *)
Definition networkx_invariant (g : MultiGraph) : bool :=
  bool_decide (NoDup (mg_nodes g))
  && forallb (fun '((u, v), kd) =>
                mg_has_node g u && mg_has_node g v
                && negb (Nat.eqb (length kd) 0)
                && bool_decide (NoDup (keydict_keys kd)))
             (mg_adj g)
  && distinct_pairs (map fst (mg_adj g)).

(** Every edge record carries a number under the weight key. *)
Definition weights_are_numbers (weight_key : string) (g : MultiGraph) : bool :=
  forallb (fun '(_, kd) =>
             forallb (fun '(_, d) => bool_decide (is_Some (weight_of weight_key d))) kd)
          (mg_adj g).

(** [g] is [g0] except that some edge records have gained (or had
    overwritten) the attribute [cycle_idx], set to their own key. *)
Definition record_marked (r0 r : Z * attrs) : Prop :=
  r.1 = r0.1 /\ (r.2 = r0.2 \/ r.2 = <["cycle_idx" := VInt r0.1]> r0.2).

Definition pair_marked (e0 e : (node * node) * keydict) : Prop :=
  e.1 = e0.1 /\ Forall2 record_marked e0.2 e.2.

Definition marks_only (g0 g : MultiGraph) : Prop :=
  mg_node g = mg_node g0 /\ Forall2 pair_marked (mg_adj g0) (mg_adj g).

(** The reduction as section 4.6 describes it: the call returns a simple
    graph with an edge for exactly the pairs adjacent in the multigraph, and
    the edge of a pair is a copy of the first cycle of minimal weight in the
    order of the key dictionary, with that cycle's key added as
    [cycle_idx]. *)
Definition reduces_to_first_minimum (graph : MultiGraph) (weight_key : string) : Prop :=
  exists simple_graph graph',
    to_simple_graph graph weight_key = (Ok simple_graph, graph')
    /\ (forall p, is_Some (sg_adj simple_graph !! p)
                  <-> exists m1 m2, p = edge_slot m1 m2
                                    /\ is_Some (pair_get (mg_adj graph) (m1, m2)))
    /\ (forall m1 m2 kd,
          pair_get (mg_adj graph) (m1, m2) = Some kd ->
          exists (i : nat) key d w,
            kd !! i = Some (key, d)
            /\ sg_edge simple_graph m1 m2 = Some (<["cycle_idx" := VInt key]> d)
            /\ weight_of weight_key (<["cycle_idx" := VInt key]> d) = Some w
            /\ (forall (j : nat) key' d' w',
                  kd !! j = Some (key', d') -> weight_of weight_key d' = Some w' ->
                  (w <= w')%Q)
            /\ (forall (j : nat) key' d' w',
                  kd !! j = Some (key', d') -> weight_of weight_key d' = Some w' ->
                  (j < i)%nat -> (w < w')%Q)).



(** The cycle indices stored for a pair. *)
Definition cycle_indices (g : MultiGraph) (m1 m2 : node) : list Z :=
  match pair_get (mg_adj g) (m1, m2) with
  | Some kd => keydict_keys kd
  | None => []
  end.

(** ** Example inputs *)

Definition coords_of (xs : list Q) : attrs := {[ "coords" := VTensor (T1 xs) ]}.

(** Two minima and no edge. *)
Definition two_minima : MultiGraph :=
  {| mg_node := [(1%Z, coords_of [0%Q; 0%Q]); (2%Z, coords_of [1%Q; 1%Q])];
     mg_adj := [] |}.

Definition cycle_record (path : list (list Q)) (distances : list Q) (saddle : Q) : attrs :=
  {[ "path_coords" := VTensor (T2 path);
     "target_distances" := VTensor (T1 distances);
     "saddle" := VNum saddle ]}.

(** The same minima with one finished cycle. *)
Definition one_cycle : MultiGraph :=
  mg_add_edge two_minima 1 2 1
    (cycle_record [[0%Q; 0%Q]; [(1#2)%Q; (1#2)%Q]; [1%Q; 1%Q]] [(1#2)%Q; (1#2)%Q] 3%Q).

(** The same minima with cycles 1 and 2. *)
Definition two_cycles : MultiGraph :=
  mg_add_edge one_cycle 1 2 2
    (cycle_record [[0%Q; 0%Q]; [(1#2)%Q; (1#2)%Q]; [1%Q; 1%Q]] [(1#2)%Q; (1#2)%Q] 2%Q).

(** The pair [(1, 2)] with weights 5.0, 2.0, 2.0 at keys 1, 2, 3. *)
Definition three_weights : MultiGraph :=
  mg_add_edge
    (mg_add_edge
       (mg_add_edge two_minima 1 2 1 {[ "weight" := VNum 5%Q ]})
       1 2 2 {[ "weight" := VNum 2%Q ]})
    1 2 3 {[ "weight" := VNum 2%Q ]}.

(** The pair [(1, 2)] with two cycles ranked by an attribute named
    [cycle_idx]. *)
Definition ranked_by_cycle_idx : MultiGraph :=
  mg_add_edge
    (mg_add_edge two_minima 1 2 1 {[ "cycle_idx" := VNum 0%Q ]})
    1 2 2 {[ "cycle_idx" := VNum (1#2)%Q ]}.

(** A graph object whose adjacency holds an emptied key dictionary for the
    pair; networkx's own methods never leave one behind. *)
Definition emptied_pair : MultiGraph :=
  {| mg_node := mg_node two_minima;
     mg_adj := [((1%Z, 2%Z), [])] |}.

(** Collaborators for the examples: the fill strategy keeps the path, the
    optimiser [SGD] leaves it where it is, the analysis reports a saddle
    value, and the suggestion chain proposes the first two nodes until they
    are connected. *)
Definition example_externals : Externals :=
  {| ModelWrapper := unit;
     FillMethod := unit;
     OptimArgs := unit;
     SuggestEngine := unit;
     NEBModel := value;
     Optimiser := unit;
     fill := fun _ path _ distances _ => Ok (path, distances);
     NEB_new := fun _ path _ => Ok path;
     optim_new := fun name => if String.eqb name "SGD" then Some (fun _ _ => Ok tt) else None;
     neb_apply := fun m => Ok m;
     optimiser_step := fun o m => Ok (o, m);
     neb_path_coords := fun m => m;
     neb_analyse := fun _ => Ok {[ "saddle" := VNum 1%Q ]};
     suggest_pair := fun g _ _ _ =>
       match mg_nodes g with
       | a :: b :: _ =>
           match pair_get (mg_adj g) (a, b) with
           | Some (_ :: _) => Ok (None, None)
           | _ => Ok (Some a, Some b)
           end
       | _ => Ok (None, None)
       end |}.

Definition example_neb_config : @NEBHyperparameters example_externals :=
  {| fill_method := tt : @FillMethod example_externals;
     insert_count := 1%Z;
     optim_config := {| optim_name := "SGD";
                        optim_args := tt : @OptimArgs example_externals;
                        nsteps := 3%Z |} |}.

Definition example_other_neb_config : @NEBHyperparameters example_externals :=
  {| fill_method := tt : @FillMethod example_externals;
     insert_count := 2%Z;
     optim_config := {| optim_name := "SGD";
                        optim_args := tt : @OptimArgs example_externals;
                        nsteps := 5%Z |} |}.

Definition example_config (count : Z) : @AutoNEBHyperparameters example_externals :=
  {| cycle_count := count;
     hyperparameter_sets := [example_neb_config; example_other_neb_config] |}.

Definition example_exploration_config
    : @LandscapeExplorationHyperparameters example_externals :=
  {| value_key := "value";
     weight_key := "saddle";
     suggest_engines := [];
     auto_neb_config := example_config 2%Z |}.

Definition world_of (g : MultiGraph) : @world example_externals :=
  {| w_graph := g; w_calls := []; w_progress := 0 |}.

(** A callable that accepts the five arguments of line 99 and answers with
    the record of a path of three images. *)
Definition five_argument_optimizer (args : list (@pyarg example_externals)) : result attrs :=
  match args with
  | [_; _; _; _; _] =>
      Ok (cycle_record [[0%Q; 0%Q]; [(1#2)%Q; (1#2)%Q]; [1%Q; 1%Q]] [(1#2)%Q; (1#2)%Q] 1%Q)
  | _ => Raise TypeError
  end.

(** The run of the manager on the emptied pair when the name [neb] is bound
    to a callable of five parameters. *)
Definition five_argument_run : result unit * @world example_externals :=
  auto_neb_with (Ext := example_externals) five_argument_optimizer Fallback 1 2 tt
    (example_config 2) (world_of emptied_pair).

(** A manager that returns without touching the graph. *)
Definition returning_manager (m1 m2 : node) (model : @ModelWrapper example_externals)
    (config : @AutoNEBHyperparameters example_externals) : M (@world example_externals) unit :=
  ret tt.

(** The files of the loader examples. *)
Definition example_files (name : string) : result pyobject :=
  if String.eqb name "graph.p" then Ok (ObjMultiGraph one_cycle)
  else if String.eqb name "simple.p" then Ok (ObjGraph empty_graph)
  else Raise OSError.

(** ** Vocabulary of the further statements *)





(** ** The minimiser (lines 34-52) *)

Module FindMinimum.

(** Modelled from the spec: the model wrapper of [torch_autoneb.models] and
    the optimiser registry of [torch.optim].  The model and the optimiser
    attached to its parameters are objects that the calls below mutate;
    [Heap] is their joint state (the random generator included), and a method
    is a computation over it. *)
Class Collaborators : Type := {
  Heap : Type;
  OptimArgs : Type;
  EvalConfig : Type;
  Optimiser : Type;
  (** [getattr(optim, name)(model.parameters(), **optim_args)];
      [None] when [optim] has no attribute of that name *)
  optim_new : string -> option (OptimArgs -> M Heap Optimiser);
  (** [model.initialise_randomly()] *)
  initialise_randomly : M Heap unit;
  (** [model.adapt_to_config(eval_config)] *)
  adapt_to_config : EvalConfig -> M Heap unit;
  (** [optimiser.zero_grad()] *)
  zero_grad : Optimiser -> M Heap unit;
  (** [model.apply(gradient=True)] *)
  model_apply : M Heap unit;
  (** [optimiser.step()] *)
  optimiser_step : Optimiser -> M Heap unit;
  (** [model.get_coords()] *)
  get_coords : M Heap value;
  (** [model.analyse()] *)
  analyse : M Heap attrs
}.

Section Minimiser.
Context `{Col : Collaborators}.

(** Modelled from the spec: [OptimHyperparameters] with the fields
    [find_minimum] reads. *)
Record OptimHyperparameters : Type := {
  optim_name : string;
  optim_args : OptimArgs;
  nsteps : Z;
  eval_config : EvalConfig
}.

Definition find_minimum (pbar : pbar_class) (config : OptimHyperparameters)
    : M Heap attrs :=
  make_optimiser <- lift (of_option AttributeError (optim_new (optim_name config)));
  optimiser <- make_optimiser (optim_args config);
  _ <- initialise_randomly;
  _ <- adapt_to_config (eval_config config);
  _ <- for_each (pbar_iter pbar (py_range 0 (nsteps config)))
         (fun _ =>
            _ <- zero_grad optimiser;
            _ <- model_apply;
            optimiser_step optimiser);
  coords <- get_coords;
  let result := ({[ "coords" := coords ]} : attrs) in
  analysis <- analyse;
  ret (attrs_update result analysis).

End Minimiser.

(** Collaborators for the examples: the heap is the position of a
    one-parameter model and the number of steps taken; [SGD] moves the
    position down by one at each step. *)
Definition example_collaborators : Collaborators :=
  {| Heap := Q * nat;
     OptimArgs := unit;
     EvalConfig := unit;
     Optimiser := unit;
     optim_new := fun name =>
       if String.eqb name "SGD" then Some (fun _ => ret tt) else None;
     initialise_randomly := modify (fun '(_, n) => (3%Q, n));
     adapt_to_config := fun _ => ret tt;
     zero_grad := fun _ => ret tt;
     model_apply := ret tt;
     optimiser_step := fun _ => modify (fun '(x, n) => ((x - 1)%Q, S n));
     get_coords := fun h => (Ok (VTensor (T1 [fst h])), h);
     analyse := fun h => (Ok {[ "value" := VNum (fst h * fst h)%Q ]}, h) |}.

Definition example_optim_config (name : string) (steps : Z)
    : @OptimHyperparameters example_collaborators :=
  {| optim_name := name;
     optim_args := tt : @OptimArgs example_collaborators;
     nsteps := steps;
     eval_config := tt : @EvalConfig example_collaborators |}.

End FindMinimum.

(** * Properties *)

(** ** Python built-ins *)

Lemma py_range_cons (a b : Z) :
  (a < b)%Z -> py_range a b = a :: py_range (a + 1) b.
Proof.
  intros Hab. unfold py_range.
  replace (Z.to_nat (b - a)) with (S (Z.to_nat (b - (a + 1)))) by lia.
  cbn [seq map]. f_equal; [lia|].
  rewrite <- seq_shift, map_map.
  apply map_ext. intros k. lia.
Qed.

Lemma py_range_empty (a b : Z) : (b <= a)%Z -> py_range a b = [].
Proof.
  intros Hab. unfold py_range.
  replace (Z.to_nat (b - a)) with 0%nat by lia. reflexivity.
Qed.

Lemma py_list_getitem_error {A : Type} (xs : list A) (i : Z) (e : exn) :
  py_list_getitem xs i = Raise e -> e = IndexError.
Proof.
  unfold py_list_getitem.
  destruct ((0 <=? i)%Z && (i <? Z.of_nat (length xs))%Z).
  - destruct (xs !! Z.to_nat i); cbn; congruence.
  - destruct ((- Z.of_nat (length xs) <=? i)%Z && (i <? 0)%Z); [|congruence].
    destruct (xs !! Z.to_nat (Z.of_nat (length xs) + i)); cbn; congruence.
Qed.

(** ** The loader *)

Lemma load_pickle_graph_read_error read_pickle name e :
  read_pickle name = Raise e -> load_pickle_graph read_pickle name = Raise e.
Proof. intros H. unfold load_pickle_graph. rewrite H. reflexivity. Qed.

(** C9: once the file has been read and unpickled, [load_pickle_graph]
    raises the [ValueError] that starts with the file's name exactly when
    the object is not a [MultiGraph], and otherwise returns that very
    object. *)
Theorem load_pickle_graph_validates
    (read_pickle : string -> result pyobject) (graph_file_name : string) (obj : pyobject) :
  read_pickle graph_file_name = Ok obj ->
  (load_pickle_graph read_pickle graph_file_name
     = Raise (ValueError (graph_file_name ++ " does not contain a nx.MultiGraph"))
   <-> is_multigraph obj = false)
  /\ (load_pickle_graph read_pickle graph_file_name = Ok obj <-> is_multigraph obj = true)
  /\ (forall other, load_pickle_graph read_pickle graph_file_name = Ok other -> other = obj).
Proof.
  intros Hread. unfold load_pickle_graph. rewrite Hread. cbn.
  destruct (is_multigraph obj); cbn; repeat split; intros H; try congruence.
Qed.

Lemma load_pickle_graph_validates_example :
  example_files "simple.p" = Ok (ObjGraph empty_graph)
  /\ load_pickle_graph example_files "simple.p"
     = Raise (ValueError "simple.p does not contain a nx.MultiGraph")
  /\ load_pickle_graph example_files "graph.p" = Ok (ObjMultiGraph one_cycle).
Proof.
  split; [reflexivity|]. split.
  - apply (load_pickle_graph_validates example_files "simple.p" (ObjGraph empty_graph));
      reflexivity.
  - apply (load_pickle_graph_validates example_files "graph.p" (ObjMultiGraph one_cycle));
      reflexivity.
Defined.

(** ** The cycle manager *)

Section CycleManager.
Context `{Ext : Externals}.

Implicit Types (w : world) (config : AutoNEBHyperparameters) (model : ModelWrapper).

(** The five arguments of line 99 never fit the three parameters of
    line 55. *)
Lemma call_neb_five_arguments pbar (a1 a2 a3 a4 a5 : pyarg) :
  call_neb pbar [a1; a2; a3; a4; a5] = Raise TypeError.
Proof. destruct a1, a2, a3; reflexivity. Qed.

(** The first iteration of the loop stops at the lookup of the
    hyperparameters or at the call. *)
Lemma auto_neb_loop_raises pbar m1 m2 model config seed start w :
  (start <= cycle_count config)%Z ->
  exists e w',
    auto_neb_loop (call_neb pbar) pbar m1 m2 model config seed start w = (Raise e, w')
    /\ (e = IndexError \/ e = TypeError)
    /\ w_graph w' = w_graph w /\ w_progress w' = w_progress w.
Proof.
  intros Hle. unfold auto_neb_loop, pbar_iter.
  rewrite py_range_cons by lia. cbn [for_each]. unfold bind at 1. unfold bind at 1.
  unfold lift at 1.
  destruct (py_list_getitem (hyperparameter_sets config) (start - 1)) as [cfg|e] eqn:Hcfg.
  - unfold call_logged, bind, modify, lift. rewrite call_neb_five_arguments.
    eexists _, _. split; [reflexivity|]. cbn. tauto.
  - assert (e = IndexError) as ->.
    { eapply py_list_getitem_error; eassumption. }
    eexists _, _. split; [reflexivity|]. tauto.
Qed.

(** Whatever it is given, [auto_neb] ends by raising, and the graph is as it
    was. *)
Lemma auto_neb_raises pbar m1 m2 model config w :
  exists e w',
    auto_neb pbar m1 m2 model config w = (Raise e, w')
    /\ w_graph w' = w_graph w /\ w_progress w' = w_progress w.
Proof.
  unfold auto_neb, auto_neb_with, bind at 1, get.
  unfold bind at 1, lift at 1.
  destruct (auto_neb_seed (w_graph w) m1 m2) as [[seed start]|e] eqn:Hseed.
  - unfold bind at 1, py_assert.
    destruct (start <=? cycle_count config)%Z eqn:Hle.
    + unfold ret.
      destruct (auto_neb_loop_raises pbar m1 m2 model config seed start w)
        as (e & w' & -> & _ & Hg & Hp); [lia|].
      eauto.
    + unfold throw. eauto.
  - eauto.
Qed.

(** A pair with at least one cycle: line 85 raises. *)
Lemma auto_neb_seed_resume graph m1 m2 kd :
  pair_get (mg_adj graph) (m1, m2) = Some kd -> kd <> [] ->
  auto_neb_seed graph m1 m2 = Raise KeyError.
Proof.
  intros Hkd Hne. unfold auto_neb_seed, mg_getitem2.
  destruct (mg_has_node graph m1); [|reflexivity].
  rewrite Hkd. cbn.
  destruct kd as [|[k d] kd']; [congruence|]. cbn [length Nat.ltb Nat.leb].
  unfold keydict_getitem.
  destruct (keydict_get ((k, d) :: kd') m1); reflexivity.
Qed.

(** A pair without a key dictionary: line 83 raises. *)
Lemma auto_neb_seed_not_adjacent graph m1 m2 :
  pair_get (mg_adj graph) (m1, m2) = None ->
  auto_neb_seed graph m1 m2 = Raise KeyError.
Proof.
  intros Hkd. unfold auto_neb_seed, mg_getitem2.
  destruct (mg_has_node graph m1); [|reflexivity].
  rewrite Hkd. reflexivity.
Qed.

Lemma auto_neb_with_seed_error callee pbar m1 m2 model config w e :
  auto_neb_seed (w_graph w) m1 m2 = Raise e ->
  auto_neb_with callee pbar m1 m2 model config w = (Raise e, w).
Proof.
  intros Hseed. unfold auto_neb_with, bind, get, lift. rewrite Hseed. reflexivity.
Qed.

(** The seed of the [else] branch, which only an emptied key dictionary
    reaches. *)
Lemma auto_neb_seed_fresh graph m1 m2 row1 row2 :
  mg_getitem2 graph m1 m2 = Ok [] ->
  node_coords_row graph m1 = Ok row1 ->
  node_coords_row graph m2 = Ok row2 ->
  length row1 = length row2 ->
  auto_neb_seed graph m1 m2
  = Ok ({[ "path_coords" := VTensor (T2 [row1; row2]);
           "target_distances" := VTensor (T1 [1%Q]) ]}, 1%Z).
Proof.
  intros Hkd H1 H2 Hlen. unfold auto_neb_seed. rewrite Hkd. cbn.
  rewrite H1, H2. cbn. unfold cat_rows. rewrite Hlen, Nat.eqb_refl. reflexivity.
Qed.

(** C2 (the code departs from it): no call of [auto_neb] runs a round to
    its end or inserts an edge; every call raises and leaves the graph as it
    was. *)
Theorem auto_neb_inserts_no_cycle pbar m1 m2 model config w :
  exists e w',
    auto_neb pbar m1 m2 model config w = (Raise e, w')
    /\ w_graph w' = w_graph w
    /\ cycle_indices (w_graph w') m1 m2 = cycle_indices (w_graph w) m1 m2.
Proof.
  destruct (auto_neb_raises pbar m1 m2 model config w) as (e & w' & Hrun & Hg & _).
  exists e, w'. rewrite Hg. auto.
Qed.

(** C3 (the code departs from it): on a pair that already has a cycle,
    [auto_neb] raises [KeyError] on line 85, before a maximum, a seed or a
    start index exists, and calls no path optimizer. *)
Theorem auto_neb_resume_raises pbar m1 m2 model config w kd :
  pair_get (mg_adj (w_graph w)) (m1, m2) = Some kd -> kd <> [] ->
  auto_neb pbar m1 m2 model config w = (Raise KeyError, w).
Proof.
  intros Hkd Hne. apply auto_neb_with_seed_error.
  eapply auto_neb_seed_resume; eauto.
Qed.

(** C4 (the code departs from it): on a pair without edges [auto_neb]
    raises [KeyError] on line 83; the seed of lines 89-93 is not built. *)
Theorem auto_neb_fresh_pair_raises pbar m1 m2 model config w :
  pair_get (mg_adj (w_graph w)) (m1, m2) = None ->
  auto_neb pbar m1 m2 model config w = (Raise KeyError, w).
Proof.
  intros Hkd. apply auto_neb_with_seed_error.
  apply auto_neb_seed_not_adjacent; assumption.
Qed.


(** One iteration of the loop adds at most one call, with the seed and the
    hyperparameter set found at [start_cycle_idx - 1]. *)
Lemma auto_neb_loop_calls callee pbar m1 m2 model config seed start w r w' :
  auto_neb_loop callee pbar m1 m2 model config seed start w = (r, w') ->
  exists new_calls,
    w_calls w' = (w_calls w ++ new_calls)%list
    /\ (new_calls = []
        \/ exists cfg,
             py_list_getitem (hyperparameter_sets config) (start - 1) = Ok cfg
             /\ Forall (fun args => args = [ANode m1; ANode m2; AData seed;
                                            AModel model; AConfig cfg]) new_calls).
Proof.
  unfold auto_neb_loop, pbar_iter.
  generalize (py_range start (cycle_count config + 1)). intros idxs.
  revert w r w'. induction idxs as [|idx idxs IH]; intros w r w' Hrun.
  - cbn in Hrun. injection Hrun as <- <-. exists []. rewrite app_nil_r. auto.
  - cbn [for_each] in Hrun. unfold bind at 1 in Hrun. unfold bind at 1 in Hrun.
    unfold lift at 1 in Hrun.
    destruct (py_list_getitem (hyperparameter_sets config) (start - 1)) as [cfg|e] eqn:Hcfg.
    2:{ injection Hrun as <- <-. exists []. rewrite app_nil_r. auto. }
    unfold bind at 1, call_logged, bind at 1, modify, lift in Hrun.
    set (args := [ANode m1; ANode m2; AData seed; AModel model; AConfig cfg]) in *.
    destruct (callee args) as [data|e].
    2:{ injection Hrun as <- <-. exists [args]. split; [reflexivity|].
        right. exists cfg. split; [reflexivity|]. repeat constructor. }
    unfold graph_add_edge in Hrun.
    destruct (data !! "key").
    { injection Hrun as <- <-. exists [args]. split; [reflexivity|].
      right. exists cfg. split; [reflexivity|]. repeat constructor. }
    apply IH in Hrun. destruct Hrun as (new_calls & Hcalls & Hshape).
    exists (args :: new_calls). split.
    { rewrite Hcalls. cbn. rewrite <- app_assoc. reflexivity. }
    right. exists cfg. split; [reflexivity|]. constructor; [reflexivity|].
    destruct Hshape as [-> | (cfg' & Hcfg' & Hall)]; [constructor|].
    assert (cfg' = cfg) as -> by congruence. exact Hall.
Qed.

(** The calls a whole run of the manager makes. *)
Lemma auto_neb_with_calls callee pbar m1 m2 model config w r w' :
  auto_neb_with callee pbar m1 m2 model config w = (r, w') ->
  exists new_calls,
    w_calls w' = (w_calls w ++ new_calls)%list
    /\ (new_calls = []
        \/ exists seed start cfg,
             auto_neb_seed (w_graph w) m1 m2 = Ok (seed, start)
             /\ py_list_getitem (hyperparameter_sets config) (start - 1) = Ok cfg
             /\ Forall (fun args => args = [ANode m1; ANode m2; AData seed;
                                            AModel model; AConfig cfg]) new_calls).
Proof.
  unfold auto_neb_with, bind at 1, get. unfold bind at 1, lift at 1.
  destruct (auto_neb_seed (w_graph w) m1 m2) as [[seed start]|e] eqn:Hseed.
  2:{ intros Hrun. injection Hrun as <- <-. exists []. rewrite app_nil_r. auto. }
  unfold bind at 1, py_assert.
  destruct (start <=? cycle_count config)%Z.
  2:{ intros Hrun. injection Hrun as <- <-. exists []. rewrite app_nil_r. auto. }
  unfold ret. intros Hrun. apply auto_neb_loop_calls in Hrun.
  destruct Hrun as (new_calls & Hcalls & Hshape). exists new_calls.
  split; [assumption|].
  destruct Hshape as [-> | (cfg & Hcfg & Hall)]; [auto|].
  right. exists seed, start, cfg. auto.
Qed.

(** C1 (the code departs from it): whatever the name [neb] is bound to,
    every round of one run of [auto_neb] is handed the seed computed before
    the loop as its previous-cycle data; the result of the round before is
    never handed on. *)
Theorem auto_neb_hands_the_seed_to_every_round callee pbar m1 m2 model config w r w' :
  auto_neb_with callee pbar m1 m2 model config w = (r, w') ->
  exists new_calls,
    w_calls w' = (w_calls w ++ new_calls)%list
    /\ forall args, In args new_calls ->
         exists seed start,
           auto_neb_seed (w_graph w) m1 m2 = Ok (seed, start)
           /\ call_previous_cycle_data args = Some seed.
Proof.
  intros Hrun. apply auto_neb_with_calls in Hrun.
  destruct Hrun as (new_calls & Hcalls & Hshape). exists new_calls.
  split; [assumption|]. intros args Hin.
  destruct Hshape as [-> | (seed & start & cfg & Hseed & _ & Hall)]; [destruct Hin|].
  exists seed, start. split; [assumption|].
  rewrite Forall_forall in Hall. rewrite (Hall args) by (apply list_elem_of_In; exact Hin).
  reflexivity.
Qed.


End CycleManager.

(** * The graph reducer *)

(** ** Comparisons *)



(** ** [min] with a key *)

Section PyMin.
Context {A : Type} (key : A -> result value) (sc : A -> Q).

Local Abbreviation keyed x := (exists v, key x = Ok v /\ as_scalar v = Some (sc x)).



End PyMin.



(** ** Key dictionaries and the adjacency *)






Lemma pair_get_In (es : list ((node * node) * keydict)) (p : node * node) (kd : keydict) :
  pair_get es p = Some kd -> exists q, In (q, kd) es /\ same_pair q p = true.
Proof.
  induction es as [|[q kd'] es IH]; cbn; [discriminate|].
  destruct (same_pair q p) eqn:Hq.
  - intros [= ->]. eauto.
  - intros H. destruct (IH H) as (q' & Hin & Hq'). eauto.
Qed.





Lemma node_get_In (ns : list (node * attrs)) (n : node) :
  In n (map fst ns) -> is_Some (node_get ns n).
Proof.
  induction ns as [|[m d] ns IH]; cbn; [tauto|].
  intros [->|Hin]; [rewrite Z.eqb_refl; eauto|].
  destruct (m =? n)%Z; eauto.
Qed.

Lemma mg_has_node_In (g : MultiGraph) (n : node) :
  mg_has_node g n = true <-> In n (mg_nodes g).
Proof.
  unfold mg_has_node, mg_nodes. rewrite bool_decide_eq_true. split.
  - intros [d Hd]. induction (mg_node g) as [|[m d'] ns IH]; cbn in *; [discriminate|].
    destruct (Z.eqb_spec m n); auto.
  - apply node_get_In.
Qed.

Lemma mg_neighbors_In (g : MultiGraph) (m1 m2 : node) :
  In m2 (mg_neighbors g m1) ->
  exists q kd, In (q, kd) (mg_adj g) /\ same_pair q (m1, m2) = true.
Proof.
  unfold mg_neighbors. rewrite in_flat_map. intros ([[u v] kd] & Hin & Hm2).
  exists (u, v), kd. split; [exact Hin|]. unfold same_pair. cbn.
  destruct (Z.eqb_spec u m1) as [->|Hu].
  - destruct Hm2 as [->|[]]. rewrite Z.eqb_refl. reflexivity.
  - destruct (Z.eqb_spec v m1) as [->|Hv]; [|destruct Hm2].
    destruct Hm2 as [->|[]]. rewrite !Z.eqb_refl. cbn. rewrite ?orb_true_r. reflexivity.
Qed.


(** ** networkx's invariant under [add_edge] *)

Lemma node_get_app (ns : list (node * attrs)) (n m : node) (d : attrs) :
  node_get (ns ++ [(n, d)]) m
  = match node_get ns m with
    | Some d' => Some d'
    | None => if (n =? m)%Z then Some d else None
    end.
Proof.
  induction ns as [|[k d'] ns IH]; cbn; [reflexivity|].
  destruct (k =? m)%Z; [reflexivity|exact IH].
Qed.

Lemma node_get_None (ns : list (node * attrs)) (n : node) :
  node_get ns n = None -> ~ In n (map fst ns).
Proof.
  induction ns as [|[k d] ns IH]; cbn; [tauto|].
  destruct (Z.eqb_spec k n) as [->|Hne]; [discriminate|].
  intros H [Hk|Hin]; [congruence|]. exact (IH H Hin).
Qed.

Lemma mg_ensure_node_NoDup (n : node) (ns : list (node * attrs)) :
  NoDup (map fst ns) -> NoDup (map fst (mg_ensure_node n ns)).
Proof.
  intros Hnd. unfold mg_ensure_node.
  destruct (node_get ns n) eqn:Hn; [exact Hnd|].
  rewrite map_app. cbn. apply NoDup_app. split; [exact Hnd|]. split.
  - intros x Hx Hx'. apply list_elem_of_In in Hx. apply list_elem_of_singleton in Hx'.
    subst x. exact (node_get_None ns n Hn Hx).
  - apply NoDup_singleton.
Qed.

Lemma mg_ensure_node_keeps (n m : node) (ns : list (node * attrs)) :
  is_Some (node_get ns m) -> is_Some (node_get (mg_ensure_node n ns) m).
Proof.
  intros [d Hd]. unfold mg_ensure_node.
  destruct (node_get ns n); [eauto|]. rewrite node_get_app, Hd. eauto.
Qed.

Lemma mg_ensure_node_has (n : node) (ns : list (node * attrs)) :
  is_Some (node_get (mg_ensure_node n ns) n).
Proof.
  unfold mg_ensure_node. destruct (node_get ns n) eqn:Hn; [rewrite Hn; eauto|].
  rewrite node_get_app, Hn, Z.eqb_refl. eauto.
Qed.

Lemma keydict_keys_alter (f : attrs -> attrs) (key : Z) (kd : keydict) :
  keydict_keys (keydict_alter f key kd) = keydict_keys kd.
Proof.
  induction kd as [|[k d] kd IH]; cbn; [reflexivity|].
  destruct (k =? key)%Z; cbn; [reflexivity|]. unfold keydict_keys in IH. rewrite IH. reflexivity.
Qed.

Lemma keydict_get_None (kd : keydict) (key : Z) :
  keydict_get kd key = None -> ~ In key (keydict_keys kd).
Proof.
  induction kd as [|[k d] kd IH]; cbn; [tauto|].
  destruct (Z.eqb_spec k key) as [->|Hne]; [discriminate|].
  intros H [Hk|Hin]; [congruence|]. exact (IH H Hin).
Qed.

Lemma keydict_add_invariant (key : Z) (attr : attrs) (kd : keydict) :
  NoDup (keydict_keys kd) ->
  keydict_add key attr kd <> [] /\ NoDup (keydict_keys (keydict_add key attr kd)).
Proof.
  intros Hnd. unfold keydict_add. destruct (keydict_get kd key) eqn:Hget.
  - rewrite keydict_keys_alter. split; [|exact Hnd].
    destruct kd as [|[k d] kd]; [discriminate|]. cbn. destruct (k =? key)%Z; discriminate.
  - split; [destruct kd; discriminate|].
    unfold keydict_keys. rewrite map_app. cbn. apply NoDup_app. split; [exact Hnd|]. split.
    + intros x Hx Hx'. apply list_elem_of_In in Hx. apply list_elem_of_singleton in Hx'.
      subst x. exact (keydict_get_None kd key Hget Hx).
    + apply NoDup_singleton.
Qed.

Lemma pair_alter_pairs (f : keydict -> keydict) (p : node * node)
    (es : list ((node * node) * keydict)) :
  map fst (pair_alter f p es) = map fst es.
Proof.
  induction es as [|[q kd] es IH]; cbn; [reflexivity|].
  destruct (same_pair q p); cbn; [reflexivity|]. rewrite IH. reflexivity.
Qed.

Lemma pair_get_None (es : list ((node * node) * keydict)) (p : node * node) :
  pair_get es p = None -> forallb (fun q => negb (same_pair q p)) (map fst es) = true.
Proof.
  induction es as [|[q kd] es IH]; cbn; [reflexivity|].
  destruct (same_pair q p); [discriminate|]. exact IH.
Qed.

Lemma same_pair_sym (p q : node * node) : same_pair p q = same_pair q p.
Proof.
  destruct p as [a b], q as [c d]. unfold same_pair. cbn.
  rewrite (Z.eqb_sym a c), (Z.eqb_sym b d), (Z.eqb_sym a d), (Z.eqb_sym b c).
  destruct (c =? a)%Z, (d =? b)%Z, (d =? a)%Z, (c =? b)%Z; reflexivity.
Qed.

Lemma distinct_pairs_snoc (ps : list (node * node)) (p : node * node) :
  distinct_pairs ps = true ->
  forallb (fun q => negb (same_pair q p)) ps = true ->
  distinct_pairs (ps ++ [p]) = true.
Proof.
  induction ps as [|q ps IH]; cbn; [reflexivity|].
  intros Hd Hp. apply andb_true_iff in Hd as [Hq Hd]. apply andb_true_iff in Hp as [Hqp Hp].
  apply andb_true_iff. split; [|exact (IH Hd Hp)].
  rewrite forallb_app, Hq. cbn. rewrite Hqp. reflexivity.
Qed.

Lemma forallb_pair_alter (P : (node * node) * keydict -> bool) (f : keydict -> keydict)
    (p : node * node) (es : list ((node * node) * keydict)) :
  (forall q kd, P (q, kd) = true -> P (q, f kd) = true) ->
  forallb P es = true -> forallb P (pair_alter f p es) = true.
Proof.
  intros Hf. induction es as [|[q kd] es IH]; cbn; [reflexivity|].
  intros H. apply andb_true_iff in H as [Hq Hes].
  destruct (same_pair q p); cbn; apply andb_true_iff; auto.
Qed.

(** [add_edge] keeps what networkx maintains. *)
Lemma mg_add_edge_invariant (g : MultiGraph) (u v : node) (key : Z) (attr : attrs) :
  networkx_invariant g = true -> networkx_invariant (mg_add_edge g u v key attr) = true.
Proof.
  unfold networkx_invariant. intros Hinv.
  apply andb_true_iff in Hinv as [Hinv Hpairs]. apply andb_true_iff in Hinv as [Hnodes Hadj].
  apply bool_decide_eq_true_1 in Hnodes.
  set (g' := mg_add_edge g u v key attr).
  assert (forall m, mg_has_node g m = true -> mg_has_node g' m = true) as Hkeep.
  { intros m. unfold mg_has_node. rewrite !bool_decide_eq_true. cbn.
    intros Hm. apply mg_ensure_node_keeps, mg_ensure_node_keeps. exact Hm. }
  assert (mg_has_node g' u = true /\ mg_has_node g' v = true) as [Hu Hv].
  { unfold mg_has_node. rewrite !bool_decide_eq_true. cbn. split.
    - apply mg_ensure_node_keeps, mg_ensure_node_has.
    - apply mg_ensure_node_has. }
  assert (forallb (fun '(u0, v0, kd) =>
                     mg_has_node g' u0 && mg_has_node g' v0
                     && negb (length kd =? 0)%nat && bool_decide (NoDup (keydict_keys kd)))
                  (mg_adj g) = true) as Hadj'.
  { rewrite forallb_forall in Hadj |- *. intros [[a b] kd] Hin. specialize (Hadj _ Hin).
    cbn in Hadj |- *. repeat (apply andb_true_iff in Hadj as [Hadj ?]).
    rewrite (Hkeep a), (Hkeep b) by assumption. cbn. apply andb_true_iff. auto. }
  assert (mg_adj g'
          = match pair_get (mg_adj g) (u, v) with
            | Some _ => pair_alter (keydict_add key attr) (u, v) (mg_adj g)
            | None => (mg_adj g ++ [((u, v), [(key, attr)])])%list
            end) as Hadjeq by reflexivity.
  assert (mg_node g' = mg_ensure_node v (mg_ensure_node u (mg_node g))) as Hnodeeq
    by reflexivity.
  clearbody g'.
  apply andb_true_iff. split; [apply andb_true_iff; split|].
  - apply bool_decide_eq_true_2. unfold mg_nodes. rewrite Hnodeeq.
    apply mg_ensure_node_NoDup, mg_ensure_node_NoDup. exact Hnodes.
  - rewrite Hadjeq. destruct (pair_get (mg_adj g) (u, v)) eqn:Hget.
    + apply forallb_pair_alter; [|exact Hadj'].
      intros [a b] kd H. repeat (apply andb_true_iff in H as [H ?]).
      match goal with Hnd : bool_decide (NoDup _) = true |- _ =>
        apply bool_decide_eq_true_1 in Hnd;
        destruct (keydict_add_invariant key attr kd Hnd) as [Hne Hnd']
      end.
      rewrite H. cbn. apply andb_true_iff. split; [apply andb_true_iff; split|].
      * assumption.
      * destruct (keydict_add key attr kd); [congruence|reflexivity].
      * apply bool_decide_eq_true_2. exact Hnd'.
    + rewrite forallb_app. apply andb_true_iff. split; [exact Hadj'|].
      cbn. rewrite Hu, Hv. cbn.
      rewrite andb_true_r. apply bool_decide_eq_true_2. apply NoDup_singleton.
  - rewrite Hadjeq. destruct (pair_get (mg_adj g) (u, v)) eqn:Hget.
    + rewrite pair_alter_pairs. exact Hpairs.
    + rewrite map_app. cbn. apply distinct_pairs_snoc; [exact Hpairs|].
      apply pair_get_None. exact Hget.
Qed.

Lemma networkx_invariant_examples :
  networkx_invariant two_minima = true
  /\ networkx_invariant one_cycle = true
  /\ networkx_invariant three_weights = true
  /\ networkx_invariant emptied_pair = false.
Proof. vm_compute. repeat split; reflexivity. Qed.

(** ** Marked records *)

Lemma marks_only_refl (g : MultiGraph) : marks_only g g.
Proof.
  split; [reflexivity|]. apply Forall2_same_length_lookup_2; [reflexivity|].
  intros i e e' He He'. rewrite He in He'. injection He' as <-.
  split; [reflexivity|]. apply Forall2_same_length_lookup_2; [reflexivity|].
  intros j r r' Hr Hr'. rewrite Hr in Hr'. injection Hr' as <-.
  split; [reflexivity|]. left. reflexivity.
Qed.

Lemma keydict_marked_get (kd0 kd : keydict) (k : Z) :
  Forall2 record_marked kd0 kd ->
  match keydict_get kd0 k, keydict_get kd k with
  | Some d0, Some d => d = d0 \/ d = <["cycle_idx" := VInt k]> d0
  | None, None => True
  | _, _ => False
  end.
Proof.
  induction 1 as [|[k0 d0] [k' d'] kd0 kd [Hk Hd] _ IH]; cbn; [exact I|].
  cbn in Hk, Hd. subst k'.
  destruct (Z.eqb_spec k0 k) as [->|Hne]; [exact Hd|exact IH].
Qed.

Lemma keydict_marked_keys (kd0 kd : keydict) :
  Forall2 record_marked kd0 kd -> keydict_keys kd = keydict_keys kd0.
Proof.
  induction 1 as [|[k0 d0] [k' d'] kd0 kd [Hk Hd] _ IH]; cbn; [reflexivity|].
  cbn in Hk. unfold keydict_keys in IH. rewrite IH, Hk. reflexivity.
Qed.

Lemma keydict_marked_alter (kd0 kd : keydict) (k : Z) :
  Forall2 record_marked kd0 kd ->
  Forall2 record_marked kd0 (keydict_alter (fun d => <["cycle_idx" := VInt k]> d) k kd).
Proof.
  induction 1 as [|[k0 d0] [k' d'] kd0 kd [Hk Hd] Hrest IH]; cbn; [constructor|].
  cbn in Hk, Hd. subst k'.
  destruct (Z.eqb_spec k0 k) as [->|Hne]; constructor; try assumption.
  - split; [reflexivity|]. right. cbn.
    destruct Hd as [->| ->]; [reflexivity|]. apply insert_insert_eq.
  - split; [reflexivity|exact Hd].
Qed.

Lemma adj_marked_get (es0 es : list ((node * node) * keydict)) (p : node * node) :
  Forall2 pair_marked es0 es ->
  match pair_get es0 p, pair_get es p with
  | Some kd0, Some kd => Forall2 record_marked kd0 kd
  | None, None => True
  | _, _ => False
  end.
Proof.
  induction 1 as [|[q0 kd0] [q kd] es0 es [Hq Hkd] _ IH]; cbn; [exact I|].
  cbn in Hq, Hkd. subst q.
  destruct (same_pair q0 p); [exact Hkd|exact IH].
Qed.

Lemma adj_marked_alter (f : keydict -> keydict) (es0 es : list ((node * node) * keydict))
    (p : node * node) :
  (forall kd0 kd, Forall2 record_marked kd0 kd -> Forall2 record_marked kd0 (f kd)) ->
  Forall2 pair_marked es0 es ->
  Forall2 pair_marked es0 (pair_alter f p es).
Proof.
  intros Hf.
  induction 1 as [|[q0 kd0] [q kd] es0 es [Hq Hkd] Hrest IH]; cbn; [constructor|].
  cbn in Hq, Hkd. subst q.
  destruct (same_pair q0 p); constructor; try assumption; split; cbn; auto.
Qed.

Lemma mg_neighbors_marked (g0 g : MultiGraph) (m : node) :
  marks_only g0 g -> mg_neighbors g m = mg_neighbors g0 m.
Proof.
  intros [_ Hadj]. unfold mg_neighbors.
  induction Hadj as [|[[u0 v0] kd0] [[u v] kd] es0 es [Hq _] _ IH]; cbn; [reflexivity|].
  cbn in Hq. injection Hq as -> ->. rewrite IH. reflexivity.
Qed.


(** ** One pair *)



Section Reduction.
Context (g0 : MultiGraph) (weight_key : string).
Hypothesis weight_key_not_cycle_idx : weight_key <> "cycle_idx".




End Reduction.

(** ** The whole reduction *)



Lemma networkx_invariant_pair (g : MultiGraph) (q : node * node) (kd : keydict) :
  networkx_invariant g = true ->
  In (q, kd) (mg_adj g) ->
  mg_has_node g q.1 = true /\ mg_has_node g q.2 = true
  /\ kd <> [] /\ NoDup (keydict_keys kd).
Proof.
  unfold networkx_invariant. intros Hinv Hin.
  apply andb_true_iff in Hinv as [Hinv _]. apply andb_true_iff in Hinv as [_ Hall].
  rewrite forallb_forall in Hall. specialize (Hall _ Hin). destruct q as [u v]. cbn in Hall.
  repeat (apply andb_true_iff in Hall as [Hall ?]).
  repeat split; cbn; try assumption.
  - intros ->. discriminate.
  - eapply bool_decide_eq_true_1. eassumption.
Qed.




(** ** What the reduction leaves of the multigraph *)

Lemma for_fold_state {S A B : Type} (P : S -> Prop) (body : A -> B -> M S B) (xs : list A) :
  (forall x acc s, P s -> P (body x acc s).2) ->
  forall acc s, P s -> P (for_fold xs body acc s).2.
Proof.
  intros Hbody. induction xs as [|x xs IH]; intros acc s Hs; [exact Hs|].
  cbn [for_fold]. unfold bind. specialize (Hbody x acc s Hs).
  destruct (body x acc s) as [[acc'|e] s']; cbn in *; auto.
Qed.

Lemma reduce_pair_marks (g0 : MultiGraph) (weight_key : string) (m1 m2 : node)
    (sg : Graph) (g : MultiGraph) :
  marks_only g0 g -> marks_only g0 (reduce_pair weight_key m1 m2 sg g).2.
Proof.
  intros Hmarks. unfold reduce_pair, bind, get, lift, modify, ret.
  destruct (result_bind (mg_getitem2 g m1 m2) _) as [key|e]; [|exact Hmarks].
  destruct (mg_getitem3 g m1 m2 key) as [d|e]; [|exact Hmarks].
  assert (marks_only g0 (mg_edge_setitem g m1 m2 key "cycle_idx" (VInt key))) as Hmarks'.
  { destruct Hmarks as [Hnodes Hadj]. split; [exact Hnodes|]. cbn.
    apply adj_marked_alter; [|exact Hadj]. intros kd1 kd2. apply keydict_marked_alter. }
  destruct (mg_getitem3 _ m1 m2 key); exact Hmarks'.
Qed.

Lemma to_simple_graph_marks_only (graph : MultiGraph) (weight_key : string) :
  marks_only graph (to_simple_graph graph weight_key).2.
Proof.
  unfold to_simple_graph, bind, lift.
  destruct (copy_nodes graph empty_graph) as [sg0|e]; [|apply marks_only_refl].
  apply (for_fold_state (marks_only graph)); [|apply marks_only_refl].
  intros m1 sg g Hg. unfold bind, get.
  apply (for_fold_state (marks_only graph)); [|exact Hg].
  intros m2 sg' g'. apply reduce_pair_marks.
Qed.

(** The end-to-end scenario of the specification: weights 5.0, 2.0, 2.0 at
    keys 1, 2, 3 reduce to cycle 2. *)
Example three_weights_reduce_to_cycle_2 :
  (to_simple_graph three_weights "weight").1
  = Ok {| sg_node := {[ 1%Z := coords_of [0%Q; 0%Q]; 2%Z := coords_of [1%Q; 1%Q] ]};
          sg_adj := {[ (1%Z, 2%Z) := {[ "weight" := VNum 2%Q; "cycle_idx" := VInt 2 ]} ]} |}.
Proof. vm_compute. reflexivity. Qed.



(** Ranking by an attribute named [cycle_idx]: the first visit of the pair
    overwrites the weight of the cycle it selected, the second visit selects
    the other cycle and overwrites its weight too, and the edge that is
    returned weighs more than a sibling. *)
Lemma to_simple_graph_ranked_by_cycle_idx :
  weights_are_numbers "cycle_idx" ranked_by_cycle_idx = true
  /\ ~ reduces_to_first_minimum ranked_by_cycle_idx "cycle_idx".
Proof.
  split; [vm_compute; reflexivity|].
  intros (sg & g' & Hrun & _ & Hpairs).
  assert (sg_edge sg 1 2 = Some {[ "cycle_idx" := VInt 2 ]}) as Hedge.
  { apply (f_equal fst) in Hrun. cbn [fst] in Hrun.
    assert ((to_simple_graph ranked_by_cycle_idx "cycle_idx").1
            = Ok {| sg_node := {[ 1%Z := coords_of [0%Q; 0%Q]; 2%Z := coords_of [1%Q; 1%Q] ]};
                    sg_adj := {[ (1%Z, 2%Z) := {[ "cycle_idx" := VInt 2 ]} ]} |}) as Hval
      by (vm_compute; reflexivity).
    rewrite Hval in Hrun. injection Hrun as <-. vm_compute. reflexivity. }
  destruct (Hpairs 1%Z 2%Z [(1%Z, {[ "cycle_idx" := VNum 0%Q ]});
                            (2%Z, {[ "cycle_idx" := VNum (1#2)%Q ]})])
    as (i & key & d & w & Hi & Hsel & Hw & Hle & _); [vm_compute; reflexivity|].
  rewrite Hedge in Hsel.
  destruct i as [|[|i]]; cbn in Hi; [| |discriminate].
  - injection Hi as <- <-.
    apply (f_equal (fun o => o ≫= (fun e : attrs => e !! "cycle_idx"))) in Hsel.
    vm_compute in Hsel. discriminate.
  - injection Hi as <- <-.
    assert (w = (2#1)%Q) as -> by (vm_compute in Hw; congruence).
    specialize (Hle 0%nat 1%Z {[ "cycle_idx" := VNum 0%Q ]} 0%Q eq_refl eq_refl).
    vm_compute in Hle. apply Hle. reflexivity.
Qed.

(** C6 (the code departs from it): on the scenario of the specification the
    call adds [cycle_idx] to the record of cycle 2 in the multigraph it was
    given; the node attributes are as before. *)
Theorem to_simple_graph_writes_into_the_multigraph :
  mg_getitem3 three_weights 1 2 2 = Ok {[ "weight" := VNum 2%Q ]}
  /\ mg_getitem3 (to_simple_graph three_weights "weight").2 1 2 2
     = Ok {[ "weight" := VNum 2%Q; "cycle_idx" := VInt 2 ]}
  /\ (to_simple_graph three_weights "weight").2 <> three_weights
  /\ mg_node (to_simple_graph three_weights "weight").2 = mg_node three_weights.
Proof.
  split; [vm_compute; reflexivity|]. split; [vm_compute; reflexivity|].
  split; [|vm_compute; reflexivity].
  intros Heq. apply (f_equal (fun g => mg_getitem3 g 1 2 2)) in Heq.
  vm_compute in Heq. discriminate.
Qed.

(** * The cycle manager on the examples *)

Lemma auto_neb_fresh_pair_raises_example :
  auto_neb (Ext := example_externals) Fallback 1 2 tt (example_config 2) (world_of two_minima)
  = (Raise KeyError, world_of two_minima).
Proof.
  apply (auto_neb_fresh_pair_raises (Ext := example_externals)). reflexivity.
Defined.

Lemma auto_neb_resume_raises_example :
  auto_neb (Ext := example_externals) Fallback 1 2 tt (example_config 3) (world_of one_cycle)
  = (Raise KeyError, world_of one_cycle).
Proof.
  eapply (auto_neb_resume_raises (Ext := example_externals)); [reflexivity|discriminate].
Defined.

(** A pair whose cycles already reach [cycle_count]: the resume state the
    assertion of line 94 is meant for ends in the [KeyError] of line 85. *)
Example finished_pair_raises_key_error :
  auto_neb (Ext := example_externals) Fallback 1 2 tt (example_config 2) (world_of two_cycles)
  = (Raise KeyError, world_of two_cycles).
Proof. vm_compute. reflexivity. Qed.

Lemma auto_neb_hands_the_seed_to_every_round_example :
  exists new_calls,
    w_calls five_argument_run.2 = ([] ++ new_calls)%list
    /\ forall args, In args new_calls ->
         exists seed start,
           auto_neb_seed emptied_pair 1 2 = Ok (seed, start)
           /\ call_previous_cycle_data args = Some seed.
Proof.
  apply (auto_neb_hands_the_seed_to_every_round (Ext := example_externals)
           five_argument_optimizer Fallback 1 2 tt (example_config 2)
           (world_of emptied_pair) five_argument_run.1 five_argument_run.2).
  reflexivity.
Defined.

(** Two rounds run; the second is handed the two-image seed again, not the
    three-image path the first one returned. *)
Example second_round_restarts_from_the_seed :
  let seed : attrs := {[ "path_coords" := VTensor (T2 [[0%Q; 0%Q]; [1%Q; 1%Q]]);
                         "target_distances" := VTensor (T1 [1%Q]) ]} in
  five_argument_run.1 = Ok tt
  /\ cycle_indices (w_graph five_argument_run.2) 1 2 = [1%Z; 2%Z]
  /\ map call_previous_cycle_data (w_calls five_argument_run.2) = [Some seed; Some seed]
  /\ mg_getitem3 (w_graph five_argument_run.2) 1 2 1
     = Ok (cycle_record [[0%Q; 0%Q]; [(1#2)%Q; (1#2)%Q]; [1%Q; 1%Q]] [(1#2)%Q; (1#2)%Q] 1%Q).
Proof. vm_compute. repeat split; reflexivity. Qed.


(** Both rounds of that run are configured by the first hyperparameter set. *)
Example both_rounds_use_the_first_set :
  map call_config (w_calls five_argument_run.2)
  = [Some example_neb_config; Some example_neb_config].
Proof. vm_compute. reflexivity. Qed.


(** * The exploration loop *)

Section Exploration.
Context `{Ext : Externals}.

Implicit Types (w : world) (config : LandscapeExplorationHyperparameters)
  (model : ModelWrapper).




(** What the fallback class would do if a cycle manager ever returned:
    [bar] is [None], and [bar.update()] raises. *)
Lemma fallback_bar_has_no_update
    (manager : node -> node -> ModelWrapper -> AutoNEBHyperparameters -> M world unit)
    fuel model config w w' m1 m2 :
  suggest_pair (w_graph w) (value_key config) (weight_key config) (suggest_engines config)
  = Ok (Some m1, Some m2) ->
  manager m1 m2 model (auto_neb_config config) w = (Ok tt, w') ->
  landscape_exploration_with manager Fallback (S fuel) model config w
  = (Raise AttributeError, w').
Proof.
  intros Hsuggest Hmanager.
  unfold landscape_exploration_with. cbn [exploration_loop pbar_enter].
  unfold bind at 1, get. unfold bind at 1, lift at 1. rewrite Hsuggest.
  unfold bind at 1. rewrite Hmanager. reflexivity.
Qed.

End Exploration.

(** The exploration of two unconnected minima stops in the cycle manager
    under either progress class. *)
Example exploration_of_two_minima :
  landscape_exploration (Ext := example_externals) Fallback 5 tt example_exploration_config
    (world_of two_minima)
  = (Raise KeyError, world_of two_minima)
  /\ landscape_exploration (Ext := example_externals) Tqdm 5 tt example_exploration_config
       (world_of two_minima)
     = (Raise KeyError, world_of two_minima).
Proof. vm_compute. split; reflexivity. Qed.

(** The same exploration around a manager that returns: tqdm's bar counts
    the rounds until the iterations run out, the fallback has no bar to
    update. *)
Example exploration_with_a_returning_manager :
  (landscape_exploration_with (Ext := example_externals) returning_manager Tqdm 5 tt
     example_exploration_config (world_of two_minima)).1 = Ok None
  /\ w_progress (landscape_exploration_with (Ext := example_externals) returning_manager
                   Tqdm 5 tt example_exploration_config (world_of two_minima)).2 = 5%nat
  /\ (landscape_exploration_with (Ext := example_externals) returning_manager Fallback 5 tt
        example_exploration_config (world_of two_minima)).1 = Raise AttributeError.
Proof. vm_compute. repeat split; reflexivity. Qed.

(** With nothing left to suggest the loop ends by the sentinel. *)
Example exploration_of_connected_minima :
  landscape_exploration (Ext := example_externals) Fallback 5 tt example_exploration_config
    (world_of one_cycle)
  = (Ok (Some tt), world_of one_cycle).
Proof. vm_compute. reflexivity. Qed.

(** ** The graph reducer, continued *)

Lemma adj_marked_pairs (es0 es : list ((node * node) * keydict)) :
  Forall2 pair_marked es0 es -> map fst es = map fst es0.
Proof.
  induction 1 as [|[q0 kd0] [q kd] es0 es [Hq _] _ IH]; cbn; [reflexivity|].
  cbn in Hq. rewrite Hq, IH. reflexivity.
Qed.

(** X1: whatever the weight key and whether or not the call raises,
    [to_simple_graph] leaves the nodes, the adjacent pairs and the cycle
    indices of its argument as they were, and an edge record is afterwards
    either what it was or what it was with [cycle_idx] set to its own key. *)
Theorem to_simple_graph_only_writes_cycle_idx (graph : MultiGraph) (weight_key : string) :
  mg_node (to_simple_graph graph weight_key).2 = mg_node graph
  /\ map fst (mg_adj (to_simple_graph graph weight_key).2) = map fst (mg_adj graph)
  /\ (forall m1 m2,
        cycle_indices (to_simple_graph graph weight_key).2 m1 m2 = cycle_indices graph m1 m2)
  /\ (forall m1 m2 key d,
        mg_getitem3 graph m1 m2 key = Ok d ->
        exists d',
          mg_getitem3 (to_simple_graph graph weight_key).2 m1 m2 key = Ok d'
          /\ (d' = d \/ d' = <["cycle_idx" := VInt key]> d)).
Proof.
  destruct (to_simple_graph_marks_only graph weight_key) as [Hnodes Hadj].
  set (graph' := (to_simple_graph graph weight_key).2) in *.
  split; [exact Hnodes|]. split; [exact (adj_marked_pairs _ _ Hadj)|]. split.
  - intros m1 m2. unfold cycle_indices.
    pose proof (adj_marked_get _ _ (m1, m2) Hadj) as Hget.
    destruct (pair_get (mg_adj graph) (m1, m2)) as [kd0|],
             (pair_get (mg_adj graph') (m1, m2)) as [kd|]; try contradiction; [|reflexivity].
    apply keydict_marked_keys. exact Hget.
  - intros m1 m2 key d. unfold mg_getitem3, mg_getitem2, mg_has_node. rewrite Hnodes.
    destruct (bool_decide _); [|discriminate].
    pose proof (adj_marked_get _ _ (m1, m2) Hadj) as Hget.
    destruct (pair_get (mg_adj graph) (m1, m2)) as [kd0|],
             (pair_get (mg_adj graph') (m1, m2)) as [kd|]; try contradiction;
      cbn; [|discriminate].
    unfold keydict_getitem.
    pose proof (keydict_marked_get _ _ key Hget) as Hd.
    destruct (keydict_get kd0 key) as [d0|], (keydict_get kd key) as [d1|];
      try contradiction; cbn; [|discriminate].
    intros [= <-]. exists d1. split; [reflexivity|exact Hd].
Qed.




(** ** The nodes of the returned graph *)

Lemma node_get_not_In (ns : list (node * attrs)) (n : node) :
  ~ In n (map fst ns) -> node_get ns n = None.
Proof.
  induction ns as [|[m d] ns IH]; cbn; [reflexivity|].
  intros Hn. destruct (Z.eqb_spec m n) as [->|Hne]; [tauto|]. apply IH. tauto.
Qed.

(** Lines 120-121 copy the attributes of every node. *)
Lemma copy_nodes_lookup (g : MultiGraph) :
  NoDup (mg_nodes g) ->
  exists sg,
    copy_nodes g empty_graph = Ok sg
    /\ sg_adj sg = ∅
    /\ forall n, sg_node sg !! n = node_get (mg_node g) n.
Proof.
  intros Hnd. unfold copy_nodes.
  assert (forall (l : list node) (sg : Graph),
            NoDup l ->
            (forall n, In n l -> In n (mg_nodes g)) ->
            (forall n, In n l -> sg_node sg !! n = None) ->
            exists sg',
              fold_left (fun acc n =>
                           sg <~ acc; d <~ mg_nodes_getitem g n; Ok (sg_add_node sg n d))
                        l (Ok sg) = Ok sg'
              /\ sg_adj sg' = sg_adj sg
              /\ forall n, sg_node sg' !! n
                           = if decide (n ∈ l) then node_get (mg_node g) n
                             else sg_node sg !! n) as Hfold.
  { induction l as [|m l IH]; intros sg Hl Hsub Hfresh; cbn [fold_left].
    - exists sg. split; [reflexivity|]. split; [reflexivity|].
      intros n. destruct (decide (n ∈ [])) as [Hn|]; [|reflexivity].
      apply not_elem_of_nil in Hn. contradiction.
    - apply NoDup_cons in Hl as [Hm Hl].
      unfold mg_nodes_getitem at 2. cbn [result_bind].
      destruct (node_get_In (mg_node g) m (Hsub m (or_introl eq_refl))) as [d Hd].
      rewrite Hd. cbn [of_option result_bind].
      destruct (IH (sg_add_node sg m d) Hl (fun n Hn => Hsub n (or_intror Hn)))
        as (sg' & Hrun & Hadj & Hnodes).
      { intros n Hn. cbn. rewrite lookup_insert_ne; [apply Hfresh; right; exact Hn|].
        intros ->. apply Hm. apply list_elem_of_In. exact Hn. }
      exists sg'. split; [exact Hrun|]. split; [exact Hadj|].
      intros n. rewrite Hnodes. cbn [sg_add_node sg_node].
      destruct (decide (n ∈ l)) as [Hn|Hn].
      + destruct (decide (n ∈ m :: l)) as [_|Hn']; [reflexivity|].
        exfalso. apply Hn'. apply elem_of_cons. right. exact Hn.
      + destruct (decide (n = m)) as [->|Hne].
        * rewrite lookup_insert_eq, (Hfresh m (or_introl eq_refl)). cbn.
          unfold attrs_update. rewrite (right_id_L ∅ (∪)).
          destruct (decide (m ∈ m :: l)) as [_|Hn']; [symmetry; exact Hd|].
          exfalso. apply Hn'. apply elem_of_cons. left. reflexivity.
        * rewrite lookup_insert_ne by congruence.
          destruct (decide (n ∈ m :: l)) as [Hin|_]; [|reflexivity].
          apply elem_of_cons in Hin as [Heq|Hin]; [congruence|contradiction]. }
  destruct (Hfold (mg_nodes g) empty_graph Hnd (fun n Hn => Hn)) as (sg & Hrun & Hadj & Hnodes).
  { intros n _. apply lookup_empty. }
  exists sg. split; [exact Hrun|]. split; [exact Hadj|].
  intros n. rewrite Hnodes. destruct (decide (n ∈ mg_nodes g)) as [_|Hn]; [reflexivity|].
  cbn. rewrite lookup_empty. symmetry. apply node_get_not_In.
  intros Hin. apply Hn. apply list_elem_of_In. exact Hin.
Qed.

Lemma sg_add_edge_known_nodes (sg : Graph) (u v : node) (data : attrs) :
  is_Some (sg_node sg !! u) -> is_Some (sg_node sg !! v) ->
  sg_node (sg_add_edge sg u v data) = sg_node sg.
Proof.
  assert (forall (g : Graph) (n : node),
            is_Some (sg_node g !! n) -> sg_node (sg_add_node g n ∅) = sg_node g) as Hadd.
  { intros g n [d Hd]. unfold sg_add_node, attrs_update. cbn [sg_node].
    rewrite Hd. cbn [default]. rewrite (left_id_L ∅ (∪)). apply insert_id. exact Hd. }
  intros Hu Hv. unfold sg_add_edge. cbn [sg_node].
  rewrite Hadd; [apply Hadd; exact Hu|]. rewrite Hadd; assumption.
Qed.

Lemma reduce_pair_result (weight_key : string) (m1 m2 : node) (sg sg' : Graph)
    (g g' : MultiGraph) :
  reduce_pair weight_key m1 m2 sg g = (Ok sg', g') ->
  exists data, sg' = sg_add_edge sg m1 m2 data.
Proof.
  unfold reduce_pair, bind, get, lift, modify, ret.
  destruct (result_bind (mg_getitem2 g m1 m2) _) as [key|e]; [|discriminate].
  destruct (mg_getitem3 g m1 m2 key) as [d|e]; [|discriminate].
  destruct (mg_getitem3 _ m1 m2 key) as [d'|e]; [|discriminate].
  intros [= <- _]. eauto.
Qed.

(** A [for] loop that ends normally has kept what each of its iterations
    keeps. *)
Lemma for_fold_ok {S A B : Type} (I : B -> S -> Prop) (body : A -> B -> M S B)
    (xs : list A) :
  (forall x acc s acc' s', In x xs -> I acc s -> body x acc s = (Ok acc', s') -> I acc' s') ->
  forall acc s acc' s', I acc s -> for_fold xs body acc s = (Ok acc', s') -> I acc' s'.
Proof.
  induction xs as [|x xs IH]; intros Hbody acc s acc' s' Hacc Hrun.
  - cbn in Hrun. injection Hrun as <- <-. exact Hacc.
  - cbn [for_fold] in Hrun. unfold bind in Hrun.
    destruct (body x acc s) as [[acc1|e] s1] eqn:Hx; [|discriminate].
    apply (IH (fun y a1 t a2 t' Hy => Hbody y a1 t a2 t' (or_intror Hy)) acc1 s1);
      [|exact Hrun].
    exact (Hbody x acc s acc1 s1 (or_introl eq_refl) Hacc Hx).
Qed.

Lemma neighbour_is_node (g : MultiGraph) (m1 m2 : node) :
  networkx_invariant g = true -> In m2 (mg_neighbors g m1) -> mg_has_node g m2 = true.
Proof.
  intros Hinv Hm2. destruct (mg_neighbors_In g m1 m2 Hm2) as ([u v] & kd & Hin & Hq).
  destruct (networkx_invariant_pair g (u, v) kd Hinv Hin) as (Hu & Hv & _).
  cbn in Hu, Hv. unfold same_pair in Hq. cbn in Hq.
  apply orb_true_iff in Hq as [Hq|Hq]; apply andb_true_iff in Hq as [H1 H2];
    apply Z.eqb_eq in H1, H2; subst; assumption.
Qed.

(** The loops of lines 123-128, run on [g0] or on [g0] with marks, leave the
    node attributes of the simple graph alone. *)
Lemma reduce_nodes_keeps_nodes (g0 : MultiGraph) (weight_key : string) (sg sg' : Graph)
    (g g' : MultiGraph) :
  networkx_invariant g0 = true ->
  marks_only g0 g ->
  (forall n, sg_node sg !! n = node_get (mg_node g0) n) ->
  for_fold (mg_nodes g0)
    (fun m1 sg =>
       g <- get;
       for_fold (mg_neighbors g m1) (fun m2 sg' => reduce_pair weight_key m1 m2 sg') sg)
    sg g = (Ok sg', g') ->
  forall n, sg_node sg' !! n = node_get (mg_node g0) n.
Proof.
  intros Hinv Hmarks Hnodes Hrun.
  set (I := fun (sg : Graph) (g : MultiGraph) =>
              marks_only g0 g /\ forall n, sg_node sg !! n = node_get (mg_node g0) n).
  assert (I sg' g') as [_ H]; [|exact H].
  eapply (for_fold_ok I); [| |exact Hrun]; [|split; assumption].
  intros m1 sg1 g1 sg2 g2 Hm1 [Hmarks1 Hnodes1]. unfold bind at 1, get.
  rewrite (mg_neighbors_marked g0 g1 m1 Hmarks1). intros Hinner.
  eapply (for_fold_ok I); [| |exact Hinner]; [|split; assumption].
  intros m2 sg3 g3 sg4 g4 Hm2 [Hmarks3 Hnodes3] Hstep. split.
  - pose proof (reduce_pair_marks g0 weight_key m1 m2 sg3 g3 Hmarks3) as Hm.
    rewrite Hstep in Hm. exact Hm.
  - destruct (reduce_pair_result _ _ _ _ _ _ _ Hstep) as [data ->].
    intros n. rewrite sg_add_edge_known_nodes; [apply Hnodes3| |].
    + rewrite Hnodes3. apply mg_has_node_In in Hm1.
      unfold mg_has_node in Hm1. apply bool_decide_eq_true_1 in Hm1. exact Hm1.
    + rewrite Hnodes3. pose proof (neighbour_is_node g0 m1 m2 Hinv Hm2) as Hn.
      unfold mg_has_node in Hn. apply bool_decide_eq_true_1 in Hn. exact Hn.
Qed.

Lemma networkx_invariant_nodes (g : MultiGraph) :
  networkx_invariant g = true -> NoDup (mg_nodes g).
Proof.
  unfold networkx_invariant. intros Hinv.
  apply andb_true_iff in Hinv as [Hinv _]. apply andb_true_iff in Hinv as [Hnodes _].
  apply bool_decide_eq_true_1 in Hnodes. exact Hnodes.
Qed.

(** X2: when [to_simple_graph] returns, the simple graph has the nodes of
    the multigraph and no others, each with the attributes it has in the
    multigraph. *)
Theorem to_simple_graph_copies_nodes (graph graph' : MultiGraph) (weight_key : string)
    (simple_graph : Graph) :
  networkx_invariant graph = true ->
  to_simple_graph graph weight_key = (Ok simple_graph, graph') ->
  forall n, sg_node simple_graph !! n = node_get (mg_node graph) n.
Proof.
  intros Hinv Hrun.
  destruct (copy_nodes_lookup graph (networkx_invariant_nodes graph Hinv))
    as (sg0 & Hcopy & _ & Hnodes0).
  unfold to_simple_graph, bind, lift in Hrun. rewrite Hcopy in Hrun.
  apply (reduce_nodes_keeps_nodes graph weight_key sg0 simple_graph graph graph' Hinv);
    [apply marks_only_refl | exact Hnodes0 | exact Hrun].
Qed.

Lemma to_simple_graph_copies_nodes_example :
  sg_node {| sg_node := {[ 1%Z := coords_of [0%Q; 0%Q]; 2%Z := coords_of [1%Q; 1%Q] ]};
             sg_adj := {[ (1%Z, 2%Z) := {[ "weight" := VNum 2%Q;
                                           "cycle_idx" := VInt 2 ]} ]} |} !! 2%Z
  = node_get (mg_node three_weights) 2%Z.
Proof.
  apply (to_simple_graph_copies_nodes three_weights
           (to_simple_graph three_weights "weight").2 "weight").
  - vm_compute. reflexivity.
  - vm_compute. reflexivity.
Defined.

(** ** Reducing again *)






(** ** A missing weight *)

Section PyMinKeyError.
Context {A : Type} (key : A -> result value).

Local Abbreviation number_or_key_error x :=
  (key x = Raise KeyError \/ exists v, key x = Ok v /\ is_Some (as_scalar v)).



End PyMinKeyError.





Section MissingWeight.
Context (g0 : MultiGraph) (weight_key : string).
Hypothesis weight_key_not_cycle_idx : weight_key <> "cycle_idx".




End MissingWeight.





(** ** The cycle manager and the exploration, continued *)








Section CycleManagerMore.
Context `{Ext : Externals}.

Implicit Types (w : world) (config : AutoNEBHyperparameters) (model : ModelWrapper).

(** On a graph built through networkx the lookups of lines 83-87 always
    fail. *)
Lemma auto_neb_networkx pbar m1 m2 model config w :
  networkx_invariant (w_graph w) = true ->
  auto_neb pbar m1 m2 model config w = (Raise KeyError, w).
Proof.
  intros Hinv. apply auto_neb_with_seed_error.
  destruct (pair_get (mg_adj (w_graph w)) (m1, m2)) as [kd|] eqn:Hkd.
  - apply (auto_neb_seed_resume _ _ _ kd Hkd).
    destruct (pair_get_In _ _ _ Hkd) as (q & Hin & _).
    destruct (networkx_invariant_pair (w_graph w) q kd Hinv Hin) as (_ & _ & Hne & _).
    exact Hne.
  - apply auto_neb_seed_not_adjacent. exact Hkd.
Qed.

(** X6: on a graph that satisfies networkx's invariant [auto_neb] raises
    [KeyError], whatever the pair and the configuration, and leaves the
    graph and the call log untouched. *)
Theorem auto_neb_raises_key_error pbar m1 m2 model config w :
  networkx_invariant (w_graph w) = true ->
  auto_neb pbar m1 m2 model config w = (Raise KeyError, w).
Proof. apply auto_neb_networkx. Qed.

(** X7: the ways [auto_neb] ends, in the order the code meets them: the
    exception of lines 83-93, the [AssertionError] of line 94, the
    [IndexError] of line 98, and otherwise the [TypeError] of the call on
    line 99, made once and followed by no [add_edge]. *)
Theorem auto_neb_outcome pbar m1 m2 model config w :
  auto_neb pbar m1 m2 model config w
  = match auto_neb_seed (w_graph w) m1 m2 with
    | Raise e => (Raise e, w)
    | Ok (seed, start) =>
        if (start <=? cycle_count config)%Z then
          match py_list_getitem (hyperparameter_sets config) (start - 1) with
          | Raise _ => (Raise IndexError, w)
          | Ok cfg =>
              (Raise TypeError,
               {| w_graph := w_graph w;
                  w_calls := (w_calls w ++ [[ANode m1; ANode m2; AData seed;
                                             AModel model; AConfig cfg]])%list;
                  w_progress := w_progress w |})
          end
        else (Raise AssertionError, w)
    end.
Proof.
  unfold auto_neb, auto_neb_with, bind at 1, get. unfold bind at 1, lift at 1.
  destruct (auto_neb_seed (w_graph w) m1 m2) as [[seed start]|e]; [|reflexivity].
  unfold bind at 1, py_assert.
  destruct (Z.leb_spec start (cycle_count config)) as [Hle|Hgt]; [|reflexivity].
  unfold ret, auto_neb_loop, pbar_iter. rewrite py_range_cons by lia.
  cbn [for_each]. unfold bind at 1. unfold bind at 1. unfold lift at 1.
  destruct (py_list_getitem (hyperparameter_sets config) (start - 1)) as [cfg|e] eqn:Hcfg.
  - unfold call_logged, bind, modify, lift. rewrite call_neb_five_arguments. reflexivity.
  - rewrite (py_list_getitem_error _ _ _ Hcfg). reflexivity.
Qed.


(** X9: on a graph that satisfies networkx's invariant the exploration is
    settled by the first suggestion: it ends normally on the sentinel,
    raises the exception of the suggestion chain, or raises the [KeyError]
    of the cycle manager; in each case the graph is as it was. *)
Theorem landscape_exploration_on_networkx_graph pbar fuel model
    (config : LandscapeExplorationHyperparameters) w :
  networkx_invariant (w_graph w) = true ->
  landscape_exploration pbar (S fuel) model config w
  = match suggest_pair (w_graph w) (value_key config) (weight_key config)
            (suggest_engines config) with
    | Raise e => (Raise e, w)
    | Ok (Some _, Some _) => (Raise KeyError, w)
    | Ok _ => (Ok (Some tt), w)
    end.
Proof.
  intros Hinv.
  unfold landscape_exploration, landscape_exploration_with. cbn [exploration_loop].
  unfold bind at 1, get. unfold bind at 1, lift at 1.
  destruct (suggest_pair (w_graph w) (value_key config) (weight_key config)
              (suggest_engines config)) as [[[m1|] [m2|]]|e]; try reflexivity.
  unfold bind at 1. rewrite (auto_neb_networkx pbar m1 m2 model _ w Hinv). reflexivity.
Qed.

(** X10: with a cycle manager that returns, the first pass of the loop of
    lines 105-111 ends in [AttributeError] under the fallback class, whose
    [__enter__] returns [None], after the manager has run once; under tqdm
    the bar is updated and the loop goes on. *)
Theorem landscape_exploration_fallback_bar
    (manager : node -> node -> ModelWrapper -> AutoNEBHyperparameters -> M world unit)
    fuel model (config : LandscapeExplorationHyperparameters) w w' m1 m2 :
  suggest_pair (w_graph w) (value_key config) (weight_key config) (suggest_engines config)
  = Ok (Some m1, Some m2) ->
  manager m1 m2 model (auto_neb_config config) w = (Ok tt, w') ->
  landscape_exploration_with manager Fallback (S fuel) model config w
  = (Raise AttributeError, w')
  /\ landscape_exploration_with manager Tqdm (S fuel) model config w
     = landscape_exploration_with manager Tqdm fuel model config
         {| w_graph := w_graph w'; w_calls := w_calls w';
            w_progress := S (w_progress w') |}.
Proof.
  intros Hsuggest Hmanager. split.
  - exact (fallback_bar_has_no_update manager fuel model config w w' m1 m2
             Hsuggest Hmanager).
  - unfold landscape_exploration_with. cbn [exploration_loop pbar_enter].
    unfold bind at 1, get. unfold bind at 1, lift at 1. rewrite Hsuggest.
    unfold bind at 1. rewrite Hmanager. reflexivity.
Qed.

End CycleManagerMore.

Lemma auto_neb_raises_key_error_example :
  auto_neb (Ext := example_externals) Fallback 1 2 tt (example_config 2) (world_of two_cycles)
  = (Raise KeyError, world_of two_cycles).
Proof.
  apply (auto_neb_raises_key_error (Ext := example_externals)). vm_compute. reflexivity.
Defined.


Lemma landscape_exploration_on_networkx_graph_example :
  landscape_exploration (Ext := example_externals) Tqdm 3 tt example_exploration_config
    (world_of one_cycle)
  = (Ok (Some tt), world_of one_cycle).
Proof.
  apply (landscape_exploration_on_networkx_graph (Ext := example_externals) Tqdm 2 tt
           example_exploration_config (world_of one_cycle)).
  vm_compute. reflexivity.
Defined.

Lemma landscape_exploration_fallback_bar_example :
  landscape_exploration_with (Ext := example_externals) returning_manager Fallback 3 tt
    example_exploration_config (world_of two_minima)
  = (Raise AttributeError, world_of two_minima)
  /\ landscape_exploration_with (Ext := example_externals) returning_manager Tqdm 3 tt
       example_exploration_config (world_of two_minima)
     = landscape_exploration_with (Ext := example_externals) returning_manager Tqdm 2 tt
         example_exploration_config
         {| w_graph := two_minima; w_calls := []; w_progress := 1 |}.
Proof.
  apply (landscape_exploration_fallback_bar (Ext := example_externals) returning_manager 2 tt
           example_exploration_config (world_of two_minima) (world_of two_minima) 1 2).
  - reflexivity.
  - reflexivity.
Defined.

(** ** The monads *)


Lemma bind_Ok {S A B : Type} (m : M S A) (k : A -> M S B) (s s' : S) (b : B) :
  bind m k s = (Ok b, s') -> exists a s1, m s = (Ok a, s1) /\ k a s1 = (Ok b, s').
Proof.
  unfold bind. destruct (m s) as [[a|e] s1]; [eauto|discriminate].
Qed.

(** ** The path optimizer *)

Section PathOptimizer.
Context `{Ext : Externals}.

(** X11: a [previous_cycle_data] without [path_coords] or without
    [target_distances] makes [neb] raise [KeyError] on lines 57-58, before
    any collaborator is called. *)
Theorem neb_needs_path_and_distances pbar (previous_cycle_data : attrs) model
    (config : NEBHyperparameters) :
  previous_cycle_data !! "path_coords" = None
  \/ previous_cycle_data !! "target_distances" = None ->
  neb pbar previous_cycle_data model config = Raise KeyError.
Proof.
  intros Hmissing. unfold neb, attrs_getitem.
  destruct (previous_cycle_data !! "path_coords") as [pc|]; cbn; [|reflexivity].
  destruct Hmissing as [Hmissing|Hmissing]; [discriminate|].
  rewrite Hmissing. reflexivity.
Qed.


(** X13: when the chain has been filled and the NEB model built, a
    configured optimiser name that [torch.optim] does not have ends [neb]
    in [AttributeError] on line 64. *)
Theorem neb_unknown_optimiser pbar (previous_cycle_data : attrs) model
    (config : NEBHyperparameters) path_coords distances start_path target_distances
    neb_model :
  previous_cycle_data !! "path_coords" = Some path_coords ->
  previous_cycle_data !! "target_distances" = Some distances ->
  fill (fill_method config) path_coords (insert_count config) distances previous_cycle_data
  = Ok (start_path, target_distances) ->
  NEB_new model start_path target_distances = Ok neb_model ->
  optim_new (optim_name (optim_config config)) = None ->
  neb pbar previous_cycle_data model config = Raise AttributeError.
Proof.
  intros Hpc Hd Hfill Hnew Hoptim. unfold neb, attrs_getitem.
  rewrite Hpc, Hd. cbn. rewrite Hfill. cbn. rewrite Hnew. cbn. rewrite Hoptim. reflexivity.
Qed.

End PathOptimizer.

Lemma neb_needs_path_and_distances_example :
  neb (Ext := example_externals) Fallback
    {[ "target_distances" := VTensor (T1 [1%Q]) ]} tt example_neb_config
  = Raise KeyError.
Proof.
  apply (neb_needs_path_and_distances (Ext := example_externals)).
  left. vm_compute. reflexivity.
Defined.


Lemma neb_unknown_optimiser_example :
  neb (Ext := example_externals) Fallback
    {[ "path_coords" := VTensor (T2 [[0%Q; 0%Q]; [1%Q; 1%Q]]);
       "target_distances" := VTensor (T1 [1%Q]) ]} tt
    {| fill_method := tt : @FillMethod example_externals;
       insert_count := 1%Z;
       optim_config := {| optim_name := "Adam";
                          optim_args := tt : @OptimArgs example_externals;
                          nsteps := 3%Z |} |}
  = Raise AttributeError.
Proof.
  eapply (neb_unknown_optimiser (Ext := example_externals)).
  - vm_compute. reflexivity.
  - vm_compute. reflexivity.
  - reflexivity.
  - reflexivity.
  - reflexivity.
Defined.

(** ** The minimiser *)

Section MinimiserProperties.
Context `{Col : FindMinimum.Collaborators}.

(** X14: an optimiser name that [torch.optim] does not have ends
    [find_minimum] in [AttributeError] on line 35, before the model is
    initialised or touched in any way. *)
Theorem find_minimum_unknown_optimiser pbar (config : FindMinimum.OptimHyperparameters)
    (h : FindMinimum.Heap) :
  FindMinimum.optim_new (FindMinimum.optim_name config) = None ->
  FindMinimum.find_minimum pbar config h = (Raise AttributeError, h).
Proof.
  intros Hoptim. unfold FindMinimum.find_minimum, bind at 1, lift.
  rewrite Hoptim. reflexivity.
Qed.

(** X15: what [find_minimum] returns holds [coords], and it holds every
    entry of the model's analysis; unless the analysis has an entry of that
    name, [coords] is what [model.get_coords()] returned. *)
Theorem find_minimum_result_has_coords pbar (config : FindMinimum.OptimHyperparameters)
    (h h' : FindMinimum.Heap) (result : attrs) :
  FindMinimum.find_minimum pbar config h = (Ok result, h') ->
  is_Some (result !! "coords")
  /\ exists h1 h2 coords analysis,
       FindMinimum.get_coords h1 = (Ok coords, h2)
       /\ FindMinimum.analyse h2 = (Ok analysis, h')
       /\ (forall name v, analysis !! name = Some v -> result !! name = Some v)
       /\ (analysis !! "coords" = None -> result !! "coords" = Some coords).
Proof.
  unfold FindMinimum.find_minimum. intros Hrun.
  apply bind_Ok in Hrun as (make_optimiser & ha & _ & Hrun).
  apply bind_Ok in Hrun as (optimiser & hb & _ & Hrun).
  apply bind_Ok in Hrun as ([] & hc & _ & Hrun).
  apply bind_Ok in Hrun as ([] & hd & _ & Hrun).
  apply bind_Ok in Hrun as ([] & h1 & _ & Hrun).
  apply bind_Ok in Hrun as (coords & h2 & Hcoords & Hrun).
  apply bind_Ok in Hrun as (analysis & h3 & Hanalysis & Hrun).
  unfold ret in Hrun. injection Hrun as <- <-. unfold attrs_update.
  assert (forall name v, analysis !! name = Some v ->
            (analysis ∪ ({[ "coords" := coords ]} : attrs)) !! name = Some v) as Hwins.
  { intros name v Hv. apply lookup_union_Some_l. exact Hv. }
  split.
  - destruct (analysis !! "coords") as [v|] eqn:Hname.
    + exists v. apply Hwins. exact Hname.
    + exists coords. rewrite lookup_union_r by exact Hname. apply lookup_singleton_eq.
  - exists h1, h2, coords, analysis.
    split; [exact Hcoords|]. split; [exact Hanalysis|]. split; [exact Hwins|].
    intros Hnone. rewrite lookup_union_r by exact Hnone. apply lookup_singleton_eq.
Qed.

End MinimiserProperties.

Lemma find_minimum_unknown_optimiser_example :
  FindMinimum.find_minimum (Col := FindMinimum.example_collaborators) Fallback
    (FindMinimum.example_optim_config "Adam" 3) (1%Q, 0%nat)
  = (Raise AttributeError, (1%Q, 0%nat)).
Proof.
  apply (find_minimum_unknown_optimiser (Col := FindMinimum.example_collaborators)).
  reflexivity.
Defined.

Lemma find_minimum_result_has_coords_example :
  is_Some (({[ "coords" := VTensor (T1 [0%Q]); "value" := VNum 0%Q ]} : attrs) !! "coords").
Proof.
  apply (find_minimum_result_has_coords (Col := FindMinimum.example_collaborators) Fallback
           (FindMinimum.example_optim_config "SGD" 3) (1%Q, 0%nat) (0%Q, 3%nat)).
  vm_compute. reflexivity.
Defined.

(** ** The loader, continued *)

(** X16: whatever [load_pickle_graph] returns is a [MultiGraph], and it is
    the object read from the file. *)
Theorem load_pickle_graph_returns_only_multigraphs
    (read_pickle : string -> result pyobject) (graph_file_name : string) (obj : pyobject) :
  load_pickle_graph read_pickle graph_file_name = Ok obj ->
  read_pickle graph_file_name = Ok obj /\ exists g, obj = ObjMultiGraph g.
Proof.
  unfold load_pickle_graph. intros Hload.
  destruct (read_pickle graph_file_name) as [graph|e]; cbn in Hload; [|discriminate].
  destruct graph as [g| |]; cbn in Hload; try discriminate.
  injection Hload as <-. split; [reflexivity|]. exists g. reflexivity.
Qed.

Lemma load_pickle_graph_returns_only_multigraphs_example :
  example_files "graph.p" = Ok (ObjMultiGraph one_cycle)
  /\ exists g, ObjMultiGraph one_cycle = ObjMultiGraph g.
Proof.
  apply (load_pickle_graph_returns_only_multigraphs example_files "graph.p").
  reflexivity.
Defined.
